(** * ttcamera: the Worker's HTTP handlers (src/index.ts)

    A shallow embedding of the five routes of the Hono application:
    the static era table, the transform handler (POST /api/time-travel),
    the media fetch handler (GET /api/images/:filename) and the media
    list handler (GET /api/images).

    The external collaborators (the request body parser, the OpenAI
    image-edit endpoint, the R2 bucket binding, the clock and the base64
    decoder of node:buffer) are not code of this repository: they enter
    the model as oracles, so every theorem holds for all of their
    behaviours. *)

From Stdlib Require Import ZArith NArith Ascii DecimalString DecimalN.
From Stdlib Require Import Strings.Byte.
From stdpp Require Import gmap strings list fin_maps sorting.

Local Set Warnings "-register-all".
Local Open Scope N_scope.
Local Open Scope stdpp_scope.

(** ** Strings *)

Module Str.

(** [s.startsWith(p)]; when it holds the rest of [s] is returned. *)
Fixpoint strip_literal (p s : string) : option string :=
  match p with
  | EmptyString => Some s
  | String a p' =>
      match s with
      | EmptyString => None
      | String b s' => if Ascii.eqb a b then strip_literal p' s' else None
      end
  end.

Definition between (lo hi c : N) : bool := (lo <=? c) && (c <=? hi).

(** The regular-expression class [\d]. *)
Definition is_digit (c : ascii) : bool :=
  between 48 57 (N_of_ascii c).

(** The regular-expression class [\w] (no [u] or [i] flag):
    [A-Za-z0-9_]. *)
Definition is_word (c : ascii) : bool :=
  let n := N_of_ascii c in
  between 65 90 n || between 97 122 n || between 48 57 n || (n =? 95).

Fixpoint all (f : ascii -> bool) (s : string) : bool :=
  match s with
  | EmptyString => true
  | String c s' => f c && all f s'
  end.

(** The longest prefix of [s] made of characters satisfying [f], and
    what follows it: a greedy [f+] or [f*]. *)
Fixpoint span (f : ascii -> bool) (s : string) : string * string :=
  match s with
  | EmptyString => (EmptyString, EmptyString)
  | String c s' =>
      if f c then let '(w, r) := span f s' in (String c w, r)
      else (EmptyString, s)
  end.

Definition is_empty (s : string) : bool :=
  match s with EmptyString => true | _ => false end.

Definition lower_char (c : ascii) : ascii :=
  let n := N_of_ascii c in
  if between 65 90 n then ascii_of_N (n + 32) else c.

(** ASCII lower-casing, as the Headers class applies to header names. *)
Fixpoint lower (s : string) : string :=
  match s with
  | EmptyString => EmptyString
  | String c s' => String (lower_char c) (lower s')
  end.

(** A template literal applied to a non-negative integer below 1e21:
    its decimal digits. *)
Definition of_N (n : N) : string :=
  NilEmpty.string_of_uint (N.to_uint n).

End Str.

(** ** JavaScript values *)

(** The values that cross the handlers: parsed request bodies and the
    objects handed to [c.json].  A number is kept as an integer: the
    handlers test request numbers for truthiness only and produce
    integer sizes and counts.  [JDate] is a [Date] object (milliseconds
    since the epoch).  [JObj] lists the own properties of an object in
    insertion order, each key once. *)
Inductive jsval : Type :=
| JUndefined
| JNull
| JBool (b : bool)
| JNum (z : Z)
| JStr (s : string)
| JDate (ms : N)
| JArr (items : list jsval)
| JObj (fields : list (string * jsval)).

(** ToBoolean, as applied by [!v] and [||]. *)
Definition truthy (v : jsval) : bool :=
  match v with
  | JUndefined | JNull => false
  | JBool b => b
  | JNum z => negb (z =? 0)%Z
  | JStr s => negb (Str.is_empty s)
  | JDate _ | JArr _ | JObj _ => true
  end.

(** Strict equality [===] of a string with an arbitrary value. *)
Definition strict_eq_string (s : string) (v : jsval) : bool :=
  match v with
  | JStr t => String.eqb s t
  | _ => false
  end.

Fixpoint assoc (k : string) (fields : list (string * jsval)) : option jsval :=
  match fields with
  | [] => None
  | (k', v) :: rest => if String.eqb k k' then Some v else assoc k rest
  end.

(** An [Error] object; only its [message] is ever read. *)
Record JsError : Type := Error { message : string }.

Inductive Outcome (A : Type) : Type :=
| Returns (a : A)
| Throws (e : JsError).
Arguments Returns {A} a.
Arguments Throws {A} e.

(** Whether ToString succeeds on a value.  Primitives always convert.
    An object converts through its [toString] method: a parsed object
    inherits a working one unless it has an own property of that name,
    which (being data, never a function) makes the conversion fail, the
    inherited [valueOf] returning the object itself.  An array joins the
    conversions of its elements. *)
Fixpoint to_string_ok (v : jsval) : bool :=
  match v with
  | JObj fields =>
      match assoc "toString" fields with
      | Some _ => false
      | None => true
      end
  | JArr items => forallb to_string_ok items
  | _ => true
  end.

(** A template literal [`...${v}...`] whose text is only logged: what
    matters is whether evaluating it throws. *)
Definition template_literal (v : jsval) : Outcome unit :=
  if to_string_ok v then Returns tt
  else Throws (Error "Cannot convert object to primitive value").

(** Reading the property [k] of [v], for the two names the transform
    handler destructures ([timeperiod], [imageData]): none of the
    built-in prototypes defines them, so only an object's own property
    can answer; reading from [null] or [undefined] is a TypeError. *)
Definition get_prop (v : jsval) (k : string) : Outcome jsval :=
  match v with
  | JUndefined | JNull =>
      Throws (Error ("Cannot destructure property '" +:+ k +:+ "'"))
  | JObj fields => Returns (default JUndefined (assoc k fields))
  | _ => Returns JUndefined
  end.

(** ** The era table *)

Record TimePeriod : Type := mkTimePeriod {
  id : string;
  name : string;
  prompt : string
}.

Definition TIME_PERIODS : list TimePeriod := [
  mkTimePeriod "prehistoric" "Prehistoric" "prehistoric era";
  mkTimePeriod "ancient-egypt" "Ancient Egypt" "ancient Egyptian civilization";
  mkTimePeriod "roman-empire" "Roman Empire" "ancient Roman civilization";
  mkTimePeriod "medieval" "Medieval" "medieval Europe";
  mkTimePeriod "renaissance" "Renaissance" "Renaissance period";
  mkTimePeriod "wild-west" "Wild West" "American Wild West era";
  mkTimePeriod "roaring-twenties" "1920s" "Roaring Twenties";
  mkTimePeriod "future" "Future (Year 3030)" "year 3030"
].

(** A [TimePeriod] as the JavaScript object it is. *)
Definition period_value (p : TimePeriod) : jsval :=
  JObj [("id", JStr (id p)); ("name", JStr (name p)); ("prompt", JStr (prompt p))].

(** [TIME_PERIODS.find(p => p.id === timeperiod)]. *)
Definition find_period (timeperiod : jsval) : option TimePeriod :=
  List.find (fun p => strict_eq_string (id p) timeperiod) TIME_PERIODS.

(** ** The object store (R2) *)

Record R2HTTPMetadata : Type := mkHttpMetadata {
  contentType : option string;
  contentLanguage : option string;
  contentDisposition : option string;
  contentEncoding : option string;
  cacheControl : option string;
  cacheExpiry : option string
}.

Record R2Object : Type := mkObject {
  key : string;
  size : N;
  uploaded : N;
  httpEtag : string;
  httpMetadata : R2HTTPMetadata;
  body : list byte
}.

(** The bucket binding of one request: a handle on the store whose
    contents live in the [Store] below.  The service decides, outside
    this program, whether a call fails, which objects a listing returns,
    and the entity tag and upload time of a written object. *)
Record R2Bucket : Type := mkBucket {
  put_fault : option JsError;
  get_fault : option JsError;
  list_result : gmap string R2Object -> Outcome (list R2Object);
  etag_of : list byte -> string;
  upload_time : N
}.

(** ** The image service (OpenAI SDK) *)

Record File : Type := mkFile {
  file_bytes : list byte;
  file_name : string;
  file_type : string
}.

Record EditRequest : Type := mkEditRequest {
  model : string;
  image : File;
  edit_prompt : string;
  moderation : string
}.

Record Image : Type := mkImage { b64_json : option string }.

Record ImagesResponse : Type := mkImagesResponse { data : option (list Image) }.

(** ** Environment, world and effects *)

(** [c.env]: the secret and the bucket binding, either of which may be
    absent. *)
Record Env : Type := mkEnv {
  OPENAI_API_KEY : option string;
  IMAGES_BUCKET : option R2Bucket
}.

(** What one request observes of the outside: the clock read by
    [Date.now()] (milliseconds elapsed since the epoch) and the answer
    of [openai.images.edit]. *)
Record World : Type := mkWorld {
  Date_now : N;
  images_edit : EditRequest -> Outcome ImagesResponse
}.

(** The calls a handler makes to its collaborators, in order: each is
    one invocation of an SDK or binding method. *)
Inductive Call : Type :=
| CallImagesEdit (req : EditRequest)
| CallPut (k : string) (value : list byte) (meta : R2HTTPMetadata)
| CallGet (k : string)
| CallList.

(** The state a handler threads: the contents of the bucket and the
    log of the calls made so far. *)
Record Store : Type := mkStore {
  objects : gmap string R2Object;
  calls : list Call
}.

(** Handlers run in a state monad over [Store] whose computations may
    throw; [try_catch] keeps the effects made before the throw. *)
Definition M (A : Type) : Type := Store -> Outcome A * Store.

Definition ret {A} (a : A) : M A := fun st => (Returns a, st).

Definition throw {A} (e : JsError) : M A := fun st => (Throws e, st).

Definition bind {A B} (m : M A) (k : A -> M B) : M B :=
  fun st =>
    match m st with
    | (Returns a, st') => k a st'
    | (Throws e, st') => (Throws e, st')
    end.

Definition try_catch {A} (m : M A) (handler : JsError -> M A) : M A :=
  fun st =>
    match m st with
    | (Returns a, st') => (Returns a, st')
    | (Throws e, st') => handler e st'
    end.

Definition lift {A} (o : Outcome A) : M A := fun st => (o, st).

Definition record_call (c : Call) : M unit :=
  fun st => (Returns tt, mkStore (objects st) (calls st ++ [c])).

Notation "x <- m ;; k" := (bind m (fun x => k))
  (at level 100, m at next level, right associativity).
Notation "m ;;; k" := (bind m (fun _ => k))
  (at level 100, right associativity).

(** [bucket.put(key, value, { httpMetadata })]: creates or replaces the
    object under [k]. *)
Definition r2_put (b : R2Bucket) (k : string) (value : list byte)
    (meta : R2HTTPMetadata) : M unit :=
  record_call (CallPut k value meta) ;;;
  match put_fault b with
  | Some e => throw e
  | None =>
      fun st =>
        let obj := mkObject k (N.of_nat (length value)) (upload_time b)
                            (etag_of b value) meta value in
        (Returns tt, mkStore (<[k := obj]> (objects st)) (calls st))
  end.

(** [bucket.get(key)]: the object, or [null] when the key is absent. *)
Definition r2_get (b : R2Bucket) (k : string) : M (option R2Object) :=
  record_call (CallGet k) ;;;
  match get_fault b with
  | Some e => throw e
  | None => fun st => (Returns (objects st !! k), st)
  end.

(** [bucket.list()]: the [objects] array of the store's native listing. *)
Definition r2_list (b : R2Bucket) : M (list R2Object) :=
  record_call CallList ;;;
  fun st => (list_result b (objects st), st).




(** [openai.images.edit(req)]: one invocation of the SDK method.  The
    client is built with its default options, so the SDK may send the
    HTTP request more than once inside the invocation. *)
Definition openai_images_edit (w : World) (req : EditRequest) : M ImagesResponse :=
  record_call (CallImagesEdit req) ;;;
  lift (images_edit w req).

(** ** Responses *)

(** The two ways the handlers build a response: [c.json(value, status)]
    and [new Response(body, { headers })]. *)
Inductive Response : Type :=
| c_json (value : jsval) (status : N)
| new_Response (payload : list byte) (headers : gmap string string).

Definition status_of (r : Response) : N :=
  match r with
  | c_json _ status => status
  | new_Response _ _ => 200
  end.

(** A property of the JSON body of a response. *)
Definition json_field (k : string) (r : Response) : option jsval :=
  match r with
  | c_json (JObj fields) _ => assoc k fields
  | _ => None
  end.

(** [headers.set(name, value)]: header names are case-insensitive and
    kept in lower case. *)
Definition Headers_set (name value : string) (h : gmap string string) :
    gmap string string :=
  <[Str.lower name := value]> h.

Definition set_if_present (name : string) (value : option string)
    (h : gmap string string) : gmap string string :=
  match value with
  | Some v => Headers_set name v h
  | None => h
  end.

(** [object.writeHttpMetadata(headers)]. *)
Definition writeHttpMetadata (o : R2Object) (h : gmap string string) :
    gmap string string :=
  let m := httpMetadata o in
  set_if_present "expires" (cacheExpiry m)
    (set_if_present "cache-control" (cacheControl m)
      (set_if_present "content-encoding" (contentEncoding m)
        (set_if_present "content-disposition" (contentDisposition m)
          (set_if_present "content-language" (contentLanguage m)
            (set_if_present "content-type" (contentType m) h))))).

(** ** The handlers *)

Definition error_body (msg : string) : jsval :=
  JObj [("error", JStr msg)].

Definition error_details (msg details : string) : jsval :=
  JObj [("error", JStr msg); ("details", JStr details)].

(** GET /api/health *)
Definition health : Response :=
  c_json (JObj [("status", JStr "ok"); ("message", JStr "Server is running")]) 200.


(** [s.replace(/^data:image\/\w+;base64,/, "")]: the pattern is anchored
    at the start; [\w+] is greedy, and since [;] is not a word character
    no shorter run of word characters can be followed by [;base64,]. *)
Definition replace_data_uri_prefix (s : string) : string :=
  match Str.strip_literal "data:image/" s with
  | Some r =>
      let '(w, r') := Str.span Str.is_word r in
      if Str.is_empty w then s
      else match Str.strip_literal ";base64," r' with
           | Some rest => rest
           | None => s
           end
  | None => s
  end.

(** [imageData.replace(...)] on a truthy value of any type: only a
    string has the method. *)
Definition imageData_replace (imageData : jsval) : Outcome string :=
  match imageData with
  | JStr s => Returns (replace_data_uri_prefix s)
  | _ => Throws (Error "imageData.replace is not a function")
  end.

Definition promptText (period : TimePeriod) : string :=
  "Transform the provided image into a photorealistic scene taking place in the "
  +:+ prompt period
  +:+ ". **It is essential to retain the original subjects' identity, features, and the overall composition of the scene.** Modify the setting, clothing, and surrounding elements to accurately reflect the style and atmosphere of the "
  +:+ prompt period
  +:+ ". The final image should clearly show the original subject transported to this different time period.".

(** [`timetravel-${period.id}-${timestamp}.png`] *)
Definition generated_key (period : TimePeriod) (timestamp : N) : string :=
  "timetravel-" +:+ id period +:+ "-" +:+ Str.of_N timestamp +:+ ".png".

Definition png_metadata : R2HTTPMetadata :=
  mkHttpMetadata (Some "image/png") None None None None None.

(** [!result.data || !result.data[0]] fails exactly when this is [None]. *)
Definition first_image (result : ImagesResponse) : option Image :=
  match data result with
  | Some (img :: _) => Some img
  | _ => None
  end.

(** A string-valued configuration entry or response field as a value. *)
Definition string_or_undefined (o : option string) : jsval :=
  match o with
  | Some s => JStr s
  | None => JUndefined
  end.

Section Handlers.

(** [Buffer.from(s, 'base64')] of node:buffer: total on strings. *)
Variable Buffer_from_base64 : string -> list byte.

(** Lines 140-186: store the generated image, or fall back to a data
    URI when no bucket is bound or the write throws. *)
Definition store_or_inline (env : Env) (w : World) (period : TimePeriod)
    (b64 : string) : M Response :=
  try_catch
    (match IMAGES_BUCKET env with
     | Some bucket =>
         let timestamp := Date_now w in
         let filename := generated_key period timestamp in
         let binaryData := Buffer_from_base64 b64 in
         r2_put bucket filename binaryData png_metadata ;;;
         ret (c_json (JObj [("success", JBool true);
                            ("image", JStr ("/api/images/" +:+ filename));
                            ("stored", JBool true);
                            ("filename", JStr filename);
                            ("timeperiod", period_value period)]) 200)
     | None =>
         let dataUri := "data:image/png;base64," +:+ b64 in
         ret (c_json (JObj [("success", JBool true);
                            ("image", JStr dataUri);
                            ("stored", JBool false);
                            ("timeperiod", period_value period)]) 200)
     end)
    (fun storageError =>
       let dataUri := "data:image/png;base64," +:+ b64 in
       ret (c_json (JObj [("success", JBool true);
                          ("image", JStr dataUri);
                          ("stored", JBool false);
                          ("storageError", JStr (message storageError));
                          ("timeperiod", period_value period)]) 200)).

Definition edit_request (period : TimePeriod) (base64Data : string) : EditRequest :=
  let imageBuffer := Buffer_from_base64 base64Data in
  let imageFile := mkFile imageBuffer "image.png" "image/png" in
  mkEditRequest "gpt-image-1" imageFile (promptText period) "low".

(** Lines 112-202: call the image service and shape its answer. *)
Definition generate (env : Env) (w : World) (period : TimePeriod)
    (imageData : jsval) : M Response :=
  try_catch
    (base64Data <- lift (imageData_replace imageData) ;;
     result <- openai_images_edit w (edit_request period base64Data) ;;
     match first_image result with
     | None => throw (Error "OpenAI returned invalid response format")
     | Some img =>
         if truthy (string_or_undefined (b64_json img)) then
           store_or_inline env w period (default "" (b64_json img))
         else
           ret (c_json (error_details "No image returned from OpenAI"
                          "The API response did not include image data") 500)
     end)
    (fun openaiError =>
       let details :=
         if truthy (JStr (message openaiError)) then message openaiError
         else "Unknown OpenAI error" in
       ret (c_json (error_details "Failed to generate image with OpenAI" details) 500)).

(** POST /api/time-travel; [request_json] is the outcome of
    [await c.req.json()].  Of the log lines only the first is kept: its
    template literal converts the unvalidated [timeperiod] to a string,
    which can throw.  Constructing the SDK client with a non-empty key
    does not fail. *)
Definition time_travel (env : Env) (w : World) (request_json : Outcome jsval) :
    M Response :=
  try_catch
    (body <- lift request_json ;;
     timeperiod <- lift (get_prop body "timeperiod") ;;
     imageData <- lift (get_prop body "imageData") ;;
     lift (template_literal timeperiod) ;;;
     if negb (truthy timeperiod) || negb (truthy imageData) then
       ret (c_json (error_body "Missing required parameters") 400)
     else
       let apiKey := string_or_undefined (OPENAI_API_KEY env) in
       if negb (truthy apiKey) then
         ret (c_json (error_details "OpenAI API key not configured"
                        "Please add OPENAI_API_KEY to your environment variables") 500)
       else
         match find_period timeperiod with
         | None => ret (c_json (error_body "Invalid time period") 400)
         | Some period => generate env w period imageData
         end)
    (fun error => ret (c_json (error_body "Failed to process request") 500)).

End Handlers.

(** GET /api/images/:filename *)
Definition get_image (env : Env) (filename : string) : M Response :=
  try_catch
    (match IMAGES_BUCKET env with
     | None => ret (c_json (error_body "R2 bucket not configured") 500)
     | Some bucket =>
         object <- r2_get bucket filename ;;
         match object with
         | None => ret (c_json (error_body "Image not found") 404)
         | Some object =>
             let headers := writeHttpMetadata object ∅ in
             let headers := Headers_set "etag" (httpEtag object) headers in
             let headers := Headers_set "Cache-Control" "public, max-age=31536000" headers in
             ret (new_Response (body object) headers)
         end
     end)
    (fun error => ret (c_json (error_details "Failed to retrieve image" (message error)) 500)).

(** The projection of one listed object. *)
Definition image_entry (obj : R2Object) : jsval :=
  JObj [("key", JStr (key obj));
        ("url", JStr ("/api/images/" +:+ key obj));
        ("size", JNum (Z.of_N (size obj)));
        ("uploaded", JDate (uploaded obj))].

(** GET /api/images *)
Definition list_images (env : Env) : M Response :=
  try_catch
    (match IMAGES_BUCKET env with
     | None => ret (c_json (error_body "R2 bucket not configured") 500)
     | Some bucket =>
         objs <- r2_list bucket ;;
         let images := map image_entry objs in
         ret (c_json (JObj [("images", JArr images);
                            ("count", JNum (Z.of_nat (length images)))]) 200)
     end)
    (fun error => ret (c_json (error_details "Failed to list images" (message error)) 500)).

(** ** A concrete runtime for worked examples *)

(** A base64 decoder in the manner of node:buffer: both alphabets are
    accepted, characters outside them are skipped and decoding stops at
    the padding.  The theorems do not depend on it; the examples run the
    handlers with it. *)
Module Base64.

Definition sextet (c : ascii) : option N :=
  let n := N_of_ascii c in
  if Str.between 65 90 n then Some (n - 65)
  else if Str.between 97 122 n then Some (n - 71)
  else if Str.between 48 57 n then Some (n + 4)
  else if (n =? 43) || (n =? 45) then Some 62
  else if (n =? 47) || (n =? 95) then Some 63
  else None.

Fixpoint sextets (s : string) : list N :=
  match s with
  | EmptyString => []
  | String c s' =>
      if (N_of_ascii c =? 61) then []
      else match sextet c with
           | Some v => v :: sextets s'
           | None => sextets s'
           end
  end.

Definition octet (n : N) : byte := default "000"%byte (Byte.of_N n).

Fixpoint octets (l : list N) : list byte :=
  match l with
  | a :: b :: c :: d :: rest =>
      octet (a * 4 + b / 16) :: octet ((b mod 16) * 16 + c / 4)
        :: octet ((c mod 4) * 64 + d) :: octets rest
  | [a; b; c] => [octet (a * 4 + b / 16); octet ((b mod 16) * 16 + c / 4)]
  | [a; b] => [octet (a * 4 + b / 16)]
  | _ => []
  end.

Definition decode (s : string) : list byte := octets (sextets s).

End Base64.

Module Sample.

(** A bucket that never fails and lists everything it holds. *)
Definition bucket : R2Bucket :=
  mkBucket None None (fun m => Returns (map snd (map_to_list m)))
           (fun _ => "etag-1") 1700000000123.

(** A bucket whose writes are refused. *)
Definition read_only_bucket : R2Bucket :=
  mkBucket (Some (Error "put failed")) None
           (fun m => Returns (map snd (map_to_list m)))
           (fun _ => "etag-1") 1700000000123.

Definition env : Env := mkEnv (Some "sk-test") (Some bucket).
Definition env_no_bucket : Env := mkEnv (Some "sk-test") None.
Definition env_read_only : Env := mkEnv (Some "sk-test") (Some read_only_bucket).
Definition env_no_key : Env := mkEnv None (Some bucket).

(** The service answers every edit with the payload [b64]. *)
Definition world_with (now : N) (b64 : string) : World :=
  mkWorld now (fun _ => Returns (mkImagesResponse (Some [mkImage (Some b64)]))).

Definition world (now : N) : World := world_with now "aGVsbG8=".

(** The service refuses every edit with an error. *)
Definition world_failing (now : N) (msg : string) : World :=
  mkWorld now (fun _ => Throws (Error msg)).

(** The service answers every edit with [response]. *)
Definition world_answering (now : N) (response : ImagesResponse) : World :=
  mkWorld now (fun _ => Returns response).

(** A bucket whose reads and listings throw. *)
Definition unreadable_bucket : R2Bucket :=
  mkBucket None (Some (Error "get failed"))
           (fun _ => Throws (Error "list failed"))
           (fun _ => "etag-1") 1700000000123.

Definition env_unreadable : Env := mkEnv (Some "sk-test") (Some unreadable_bucket).






Definition empty : Store := mkStore ∅ [].

Definition medieval : TimePeriod :=
  mkTimePeriod "medieval" "Medieval" "medieval Europe".

Definition body (timeperiod imageData : string) : jsval :=
  JObj [("timeperiod", JStr timeperiod); ("imageData", JStr imageData)].

Definition request (timeperiod imageData : string) : Outcome jsval :=
  Returns (body timeperiod imageData).

(** A store that already holds one image. *)
Definition stored_png : R2Object :=
  mkObject "timetravel-future-1700000000000.png" 5 1700000000123 "etag-1"
           png_metadata (Base64.decode "aGVsbG8=").

Definition one_image : Store :=
  mkStore {[ "timetravel-future-1700000000000.png" := stored_png ]} [].

End Sample.

(** ** Vocabulary of the properties *)

(** What may follow a greedy run of [f]: the end of the string or a
    character outside [f]. *)
Definition stops (f : ascii -> bool) (r : string) : Prop :=
  match r with
  | EmptyString => True
  | String c _ => f c = false
  end.

(** The language of the pattern [data:image\/\w+;base64,]. *)
Definition pattern_prefix (p : string) : Prop :=
  exists w, w <> "" /\ Str.all Str.is_word w = true /\
            p = "data:image/" +:+ w +:+ ";base64,".

(** Every character but [x]. *)
Definition not_char (x c : ascii) : bool := negb (Ascii.eqb c x).

(** A data-URI prefix ahead of a base64 payload, in the general form
    [data:<media type>;base64,] of a data URL; the media type holds no
    comma.  The handler's pattern recognises only some of these. *)
Definition data_uri_prefix (p : string) : Prop :=
  exists mediatype,
    Str.all (not_char ",") mediatype = true /\
    p = "data:" +:+ mediatype +:+ ";base64,".




(** The store after the image service has been called. *)
Definition after_edit (req : EditRequest) (st : Store) : Store :=
  mkStore (objects st) (calls st ++ [CallImagesEdit req]).

(** The store after a put has been attempted, and after it succeeded. *)
Definition after_put_attempt (k : string) (value : list byte) (st : Store) : Store :=
  mkStore (objects st) (calls st ++ [CallPut k value png_metadata]).

Definition stored_object (b : R2Bucket) (k : string) (value : list byte) : R2Object :=
  mkObject k (N.of_nat (length value)) (upload_time b) (etag_of b value)
           png_metadata value.

Definition after_put (b : R2Bucket) (k : string) (value : list byte) (st : Store) : Store :=
  mkStore (<[k := stored_object b k value]> (objects st))
          (calls st ++ [CallPut k value png_metadata]).

Definition stored_response (period : TimePeriod) (filename : string) : Response :=
  c_json (JObj [("success", JBool true);
                ("image", JStr ("/api/images/" +:+ filename));
                ("stored", JBool true);
                ("filename", JStr filename);
                ("timeperiod", period_value period)]) 200.

(** The characters of a generated key: lower-case letters, digits, [-]
    and [.]; none of them needs escaping in a URL path. *)
Definition is_key_char (c : ascii) : bool :=
  let n := N_of_ascii c in
  Str.between 97 122 n || Str.between 48 57 n || (n =? 45) || (n =? 46).

(** * Properties *)

(** ** Facts about strings *)

Lemma app_nil_str (s : string) : "" +:+ s = s.
Proof. reflexivity. Qed.

Lemma app_cons_str (c : ascii) (a b : string) :
  String c a +:+ b = String c (a +:+ b).
Proof. reflexivity. Qed.

Ltac str_simpl := rewrite ?app_cons_str, ?app_nil_str in *; simpl in *.

Lemma strip_literal_app p s : Str.strip_literal p (p +:+ s) = Some s.
Proof.
  induction p as [|a p IH]; str_simpl; [reflexivity|].
  by rewrite Ascii.eqb_refl.
Qed.

Lemma strip_literal_Some p s r : Str.strip_literal p s = Some r -> s = p +:+ r.
Proof.
  revert s. induction p as [|a p IH]; intros s; simpl.
  - by intros [= ->].
  - destruct s as [|b s]; [discriminate|].
    destruct (Ascii.eqb_spec a b) as [->|]; [|discriminate].
    intros H. str_simpl. f_equal. by apply IH.
Qed.

Lemma span_app f w r :
  Str.all f w = true -> stops f r -> Str.span f (w +:+ r) = (w, r).
Proof.
  induction w as [|c w IH]; str_simpl; intros Hall Hstop.
  - destruct r as [|c r]; simpl in *; [reflexivity|]. by rewrite Hstop.
  - apply andb_true_iff in Hall as [Hc Hw]. by rewrite Hc, IH.
Qed.

Lemma span_spec f s w r :
  Str.span f s = (w, r) -> s = w +:+ r /\ Str.all f w = true /\ stops f r.
Proof.
  revert w r. induction s as [|c s IH]; simpl; intros w r.
  - intros [= <- <-]. done.
  - destruct (f c) eqn:Hc.
    + destruct (Str.span f s) as [w' r'] eqn:Hs. intros [= <- <-].
      destruct (IH _ _ eq_refl) as (-> & Hall & Hstop).
      str_simpl. rewrite Hc. done.
    + intros [= <- <-]. simpl. done.
Qed.

Lemma is_empty_true s : Str.is_empty s = true <-> s = "".
Proof. destruct s; simpl; split; congruence. Qed.

Lemma is_empty_false s : Str.is_empty s = false <-> s <> "".
Proof. destruct s; simpl; split; congruence. Qed.

Lemma all_app f a b :
  Str.all f (a +:+ b) = Str.all f a && Str.all f b.
Proof.
  induction a as [|c a IH]; str_simpl; [reflexivity|].
  by rewrite IH, andb_assoc.
Qed.

Lemma app_assoc_str (a b c : string) : (a +:+ b) +:+ c = a +:+ (b +:+ c).
Proof. induction a as [|x a IH]; str_simpl; [reflexivity|]. by rewrite IH. Qed.

Lemma app_inv_head_str (p a b : string) : p +:+ a = p +:+ b -> a = b.
Proof. induction p as [|x p IH]; str_simpl; [done|]. intros [=]. auto. Qed.

(** Decimal rendering yields digits only, at least one of them, and
    distinct numbers render differently. *)
Lemma string_of_uint_digits d :
  Str.all Str.is_digit (NilEmpty.string_of_uint d) = true.
Proof. induction d; simpl; auto. Qed.

Lemma of_N_digits n : Str.all Str.is_digit (Str.of_N n) = true.
Proof. apply string_of_uint_digits. Qed.

Lemma of_N_nonempty n : Str.of_N n <> "".
Proof.
  unfold Str.of_N. destruct n as [|p]; [discriminate|]. simpl.
  pose proof (DecimalPos.Unsigned.to_uint_nonnil p) as Hnil.
  destruct (Pos.to_uint p); simpl; congruence.
Qed.

Lemma of_N_inj n m : Str.of_N n = Str.of_N m -> n = m.
Proof.
  unfold Str.of_N. intros H.
  apply DecimalN.Unsigned.to_uint_inj.
  apply (f_equal NilEmpty.uint_of_string) in H.
  rewrite !NilEmpty.usu in H. congruence.
Qed.

(** A string is cut in one way only at its last occurrence of a
    separator. *)
Lemma split_last_unique (sep : ascii) (f : ascii -> bool) (a1 a2 r1 r2 : string) :
  f sep = false ->
  Str.all f r1 = true -> Str.all f r2 = true ->
  a1 +:+ String sep r1 = a2 +:+ String sep r2 ->
  a1 = a2 /\ r1 = r2.
Proof.
  intros Hsep H1 H2. revert a2.
  induction a1 as [|x a1 IH]; intros [|y a2]; str_simpl; intros H.
  - by injection H as ->.
  - injection H as -> ->. rewrite all_app in H1. simpl in H1.
    rewrite Hsep, andb_false_r in H1. discriminate.
  - injection H as <- <-. rewrite all_app in H2. simpl in H2.
    rewrite Hsep, andb_false_r in H2. discriminate.
  - injection H as -> H. destruct (IH _ H). by subst.
Qed.

(** ** Facts about the data-URI pattern *)

Lemma replace_strips p rest :
  pattern_prefix p -> replace_data_uri_prefix (p +:+ rest) = rest.
Proof.
  intros (w & Hne & Hw & ->). unfold replace_data_uri_prefix.
  rewrite !app_assoc_str, strip_literal_app.
  rewrite (span_app Str.is_word w (";base64," +:+ rest) Hw); [|by str_simpl].
  apply is_empty_false in Hne. rewrite Hne.
  by rewrite strip_literal_app.
Qed.

Lemma replace_keeps s :
  (forall p rest, pattern_prefix p -> s <> p +:+ rest) ->
  replace_data_uri_prefix s = s.
Proof.
  intros Hno. unfold replace_data_uri_prefix.
  destruct (Str.strip_literal "data:image/" s) as [r|] eqn:Hr; [|reflexivity].
  destruct (Str.span Str.is_word r) as [w r'] eqn:Hspan.
  destruct (Str.is_empty w) eqn:Hw; [reflexivity|].
  destruct (Str.strip_literal ";base64," r') as [rest|] eqn:Hrest; [|reflexivity].
  exfalso.
  apply strip_literal_Some in Hr, Hrest.
  apply span_spec in Hspan as (-> & Hall & _). subst.
  apply (Hno ("data:image/" +:+ w +:+ ";base64,") rest).
  - exists w. split; [by apply is_empty_false|done].
  - by rewrite !app_assoc_str.
Qed.

(** ** Facts about the era table *)

Lemma find_period_Some tp p :
  find_period tp = Some p -> tp = JStr (id p) /\ In p TIME_PERIODS.
Proof.
  intros H. apply find_some in H as [Hin Heq]. split; [|done].
  destruct tp; simpl in Heq; try discriminate.
  apply String.eqb_eq in Heq. by subst.
Qed.

Lemma find_period_id p :
  In p TIME_PERIODS -> find_period (JStr (id p)) = Some p.
Proof.
  unfold TIME_PERIODS. simpl.
  intros H. repeat (destruct H as [<-|H]; [reflexivity|]). destruct H.
Qed.

Lemma period_id_truthy p :
  In p TIME_PERIODS -> truthy (JStr (id p)) = true.
Proof.
  unfold TIME_PERIODS. simpl.
  intros H. repeat (destruct H as [<-|H]; [reflexivity|]). destruct H.
Qed.

(** ** Facts about generated keys *)

Lemma all_impl (f g : ascii -> bool) s :
  (forall c, f c = true -> g c = true) ->
  Str.all f s = true -> Str.all g s = true.
Proof.
  intros Hfg. induction s as [|c s IH]; simpl; [done|].
  intros [Hc Hs]%andb_true_iff. rewrite (Hfg _ Hc). by apply IH.
Qed.

Lemma digit_not_char x c :
  Str.is_digit x = false -> Str.is_digit c = true -> not_char x c = true.
Proof.
  intros Hx Hc. unfold not_char.
  destruct (Ascii.eqb_spec c x) as [->|]; [congruence|reflexivity].
Qed.

Lemma digits_avoid x n rest :
  Str.is_digit x = false -> Str.all (not_char x) rest = true ->
  Str.all (not_char x) (Str.of_N n +:+ rest) = true.
Proof.
  intros Hx Hrest. rewrite all_app, Hrest, andb_true_r.
  apply (all_impl Str.is_digit); [|apply of_N_digits].
  intros c. by apply digit_not_char.
Qed.

Lemma generated_key_inj p1 t1 p2 t2 :
  generated_key p1 t1 = generated_key p2 t2 -> id p1 = id p2 /\ t1 = t2.
Proof.
  unfold generated_key. intros H.
  apply app_inv_head_str in H.
  rewrite !app_cons_str, !app_nil_str in H.
  pose proof (digits_avoid "-" t1 ".png" eq_refl eq_refl) as H1.
  pose proof (digits_avoid "-" t2 ".png" eq_refl eq_refl) as H2.
  destruct (split_last_unique "-" (not_char "-") _ _ _ _ eq_refl H1 H2 H)
    as [Hid Hts].
  split; [done|].
  apply of_N_inj.
  by destruct (split_last_unique "." (not_char ".") (Str.of_N t1) (Str.of_N t2)
                 "png" "png" eq_refl eq_refl eq_refl Hts).
Qed.

(** ** The transform handler, path by path *)

Section TransformFacts.

Variable Buffer_from_base64 : string -> list byte.

Lemma store_or_inline_unbound env w period b64 st :
  IMAGES_BUCKET env = None ->
  store_or_inline Buffer_from_base64 env w period b64 st =
    (Returns (c_json (JObj [("success", JBool true);
                            ("image", JStr ("data:image/png;base64," +:+ b64));
                            ("stored", JBool false);
                            ("timeperiod", period_value period)]) 200), st).
Proof. intros H. unfold store_or_inline, try_catch. by rewrite H. Qed.

Lemma store_or_inline_put_fails env w period b64 st bucket e :
  IMAGES_BUCKET env = Some bucket -> put_fault bucket = Some e ->
  store_or_inline Buffer_from_base64 env w period b64 st =
    (Returns (c_json (JObj [("success", JBool true);
                            ("image", JStr ("data:image/png;base64," +:+ b64));
                            ("stored", JBool false);
                            ("storageError", JStr (message e));
                            ("timeperiod", period_value period)]) 200),
     after_put_attempt (generated_key period (Date_now w))
                       (Buffer_from_base64 b64) st).
Proof.
  intros Hb He. unfold store_or_inline, try_catch, r2_put, bind, record_call.
  rewrite Hb. simpl. by rewrite He.
Qed.

Lemma store_or_inline_put_ok env w period b64 st bucket :
  IMAGES_BUCKET env = Some bucket -> put_fault bucket = None ->
  store_or_inline Buffer_from_base64 env w period b64 st =
    (Returns (stored_response period (generated_key period (Date_now w))),
     after_put bucket (generated_key period (Date_now w))
               (Buffer_from_base64 b64) st).
Proof.
  intros Hb He. unfold store_or_inline, try_catch, r2_put, bind, record_call.
  rewrite Hb. simpl. by rewrite He.
Qed.

Lemma store_or_inline_returns env w period b64 st :
  exists r st', store_or_inline Buffer_from_base64 env w period b64 st = (Returns r, st').
Proof.
  destruct (IMAGES_BUCKET env) as [bucket|] eqn:Hb.
  - destruct (put_fault bucket) as [e|] eqn:He.
    + erewrite store_or_inline_put_fails; eauto.
    + erewrite store_or_inline_put_ok; eauto.
  - erewrite store_or_inline_unbound; eauto.
Qed.

Lemma generate_returns env w period imageData st :
  exists r st', generate Buffer_from_base64 env w period imageData st = (Returns r, st').
Proof.
  unfold generate, try_catch.
  match goal with |- context [match ?m st with _ => _ end] => destruct (m st) as [[r|e] st'] end;
    unfold ret; eauto.
Qed.

(** The handler always answers: no exception escapes it. *)
Lemma time_travel_returns env w request_json st :
  exists r st',
    time_travel Buffer_from_base64 env w request_json st = (Returns r, st').
Proof.
  unfold time_travel, try_catch.
  match goal with |- context [match ?m st with _ => _ end] => destruct (m st) as [[r|e] st'] end;
    unfold ret; eauto.
Qed.

(** Once the fields are present, the credential is configured and the
    era is known, the handler is its generation step. *)
Lemma time_travel_accepted env w body period imageData st :
  get_prop body "timeperiod" = Returns (JStr (id period)) ->
  In period TIME_PERIODS ->
  get_prop body "imageData" = Returns imageData ->
  truthy imageData = true ->
  truthy (string_or_undefined (OPENAI_API_KEY env)) = true ->
  time_travel Buffer_from_base64 env w (Returns body) st =
    generate Buffer_from_base64 env w period imageData st.
Proof.
  intros Htp Hin Himg Himg' Hkey.
  unfold time_travel, try_catch, bind, lift.
  rewrite Htp, Himg, (period_id_truthy _ Hin), Himg', Hkey. simpl.
  rewrite (find_period_id _ Hin).
  by destruct (generate_returns env w period imageData st) as (r & st' & ->).
Qed.

(** With a string image and an upstream answer that carries a payload,
    generation is the storage step run after the edit call. *)
Lemma generate_upstream_ok env w period img st result im payload :
  images_edit w (edit_request Buffer_from_base64 period (replace_data_uri_prefix img))
    = Returns result ->
  first_image result = Some im ->
  b64_json im = Some payload ->
  payload <> "" ->
  generate Buffer_from_base64 env w period (JStr img) st =
    store_or_inline Buffer_from_base64 env w period payload
      (after_edit (edit_request Buffer_from_base64 period (replace_data_uri_prefix img)) st).
Proof.
  intros Hedit Hfirst Hb64 Hne.
  unfold generate, try_catch, bind, lift, openai_images_edit, record_call, bind, lift.
  simpl. rewrite Hedit, Hfirst, Hb64. simpl.
  apply is_empty_false in Hne. rewrite Hne. simpl.
  fold (after_edit (edit_request Buffer_from_base64 period (replace_data_uri_prefix img)) st).
  by destruct (store_or_inline_returns env w period payload
                 (after_edit (edit_request Buffer_from_base64 period
                                (replace_data_uri_prefix img)) st))
    as (r & st' & ->).
Qed.

End TransformFacts.

(** ** The transform handler: validation order *)

Lemma falsy_converts v : truthy v = false -> to_string_ok v = true.
Proof. by destruct v. Qed.

Section Validation.

Variable Buffer_from_base64 : string -> list byte.

(** A request in which [timeperiod] or [imageData] is falsy (an empty
    string, [0], [false], [null] or absent) is answered with HTTP 400
    and the missing-parameters error, whatever the environment holds
    and whatever the services would answer, as long as the log line can
    print [timeperiod]; the store is left as it was and no call is
    made. *)
Lemma falsy_field_is_missing (env : Env) (w : World)
    (body timeperiod imageData : jsval) (st : Store) :
  get_prop body "timeperiod" = Returns timeperiod ->
  get_prop body "imageData" = Returns imageData ->
  to_string_ok timeperiod = true ->
  truthy timeperiod = false \/ truthy imageData = false ->
  time_travel Buffer_from_base64 env w (Returns body) st =
    (Returns (c_json (error_body "Missing required parameters") 400), st).
Proof.
  intros Htp Himg Hprint Hfalsy.
  unfold time_travel, template_literal, try_catch, bind, lift.
  rewrite Htp, Himg, Hprint.
  destruct Hfalsy as [-> | ->]; simpl; [reflexivity|].
  by rewrite orb_true_r.
Qed.

(** A falsy [timeperiod] is always printable: the answer is 400
    whatever [imageData] is. *)
Lemma falsy_timeperiod_is_missing (env : Env) (w : World)
    (body timeperiod imageData : jsval) (st : Store) :
  get_prop body "timeperiod" = Returns timeperiod ->
  get_prop body "imageData" = Returns imageData ->
  truthy timeperiod = false ->
  time_travel Buffer_from_base64 env w (Returns body) st =
    (Returns (c_json (error_body "Missing required parameters") 400), st).
Proof.
  intros Htp Himg Hfalsy.
  apply (falsy_field_is_missing _ _ _ timeperiod imageData); auto using falsy_converts.
Qed.


(** C4 (amended): a request whose body can be destructured and whose
    [timeperiod] matches no era and is a value the log line can print
    is answered with HTTP 400 and a JSON error body, provided the
    credential is configured or one of the two fields is falsy. *)
Theorem unknown_era_rejected (env : Env) (w : World)
    (body timeperiod imageData : jsval) (st : Store) :
  get_prop body "timeperiod" = Returns timeperiod ->
  get_prop body "imageData" = Returns imageData ->
  to_string_ok timeperiod = true ->
  find_period timeperiod = None ->
  truthy (string_or_undefined (OPENAI_API_KEY env)) = true
    \/ truthy timeperiod = false \/ truthy imageData = false ->
  exists msg,
    time_travel Buffer_from_base64 env w (Returns body) st =
      (Returns (c_json (error_body msg) 400), st).
Proof.
  intros Htp Himg Hprint Hnone Hcases.
  unfold time_travel, template_literal, try_catch, bind, lift.
  rewrite Htp, Himg, Hprint.
  destruct (truthy timeperiod) eqn:Ht; simpl; [|eauto].
  destruct (truthy imageData) eqn:Hi; simpl; [|eauto].
  destruct Hcases as [Hkey | [? | ?]]; try discriminate.
  rewrite Hkey, Hnone. simpl. eauto.
Qed.

End Validation.

(** ** The transform handler: accepted requests *)

Section AcceptedRequest.

Variable Buffer_from_base64 : string -> list byte.

(** An accepted request: a body carrying a known era identifier and a
    non-empty image string, in an environment with a credential. *)
Variables (env : Env) (w : World) (st : Store).
Variables (body : jsval) (period : TimePeriod) (img credential : string).
Hypothesis Htimeperiod : get_prop body "timeperiod" = Returns (JStr (id period)).
Hypothesis Hknown : In period TIME_PERIODS.
Hypothesis HimageData : get_prop body "imageData" = Returns (JStr img).
Hypothesis Himg : img <> "".
Hypothesis Hkey : OPENAI_API_KEY env = Some credential.
Hypothesis Hcredential : credential <> "".

Lemma accepted_is_generate :
  time_travel Buffer_from_base64 env w (Returns body) st =
    generate Buffer_from_base64 env w period (JStr img) st.
Proof using All.
  apply time_travel_accepted; try done.
  - simpl. by apply is_empty_false in Himg as ->.
  - rewrite Hkey. simpl. by apply is_empty_false in Hcredential as ->.
Qed.

Lemma store_or_inline_calls p b64 s :
  exists later,
    calls (snd (store_or_inline Buffer_from_base64 env w p b64 s)) = calls s ++ later /\
    forall r, CallImagesEdit r ∉ later.
Proof.
  destruct (IMAGES_BUCKET env) as [bucket|] eqn:Hb.
  - destruct (put_fault bucket) as [e|] eqn:He.
    + erewrite store_or_inline_put_fails by eauto. simpl.
      eexists. split; [reflexivity|]. intros r Hin.
      apply list_elem_of_singleton in Hin. discriminate.
    + erewrite store_or_inline_put_ok by eauto. simpl.
      eexists. split; [reflexivity|]. intros r Hin.
      apply list_elem_of_singleton in Hin. discriminate.
  - erewrite store_or_inline_unbound by eauto. simpl.
    exists []. split; [by rewrite app_nil_r|]. intros r Hin.
    by apply not_elem_of_nil in Hin.
Qed.

(** C7 (amended): for an accepted request the handler calls the image
    service once, with the model [gpt-image-1], the moderation level
    [low], the instruction built from the era's prompt fragment, and a
    file whose bytes are the base64 decoding of the image string after
    the pattern [data:image/<word characters>;base64,] has been removed
    from its start: an input [p ++ rest] with [p] in the pattern is
    decoded from [rest], and an input that starts with no such prefix
    is decoded whole. *)
Theorem edit_request_payload :
  exists req later,
    calls (snd (time_travel Buffer_from_base64 env w (Returns body) st))
      = calls st ++ CallImagesEdit req :: later /\
    (forall r, CallImagesEdit r ∉ later) /\
    model req = "gpt-image-1" /\
    moderation req = "low" /\
    edit_prompt req = promptText period /\
    (exists pre mid post,
        edit_prompt req = pre +:+ prompt period +:+ mid +:+ prompt period +:+ post) /\
    file_bytes (image req) = Buffer_from_base64 (replace_data_uri_prefix img) /\
    (forall p rest, pattern_prefix p -> img = p +:+ rest ->
        file_bytes (image req) = Buffer_from_base64 rest) /\
    ((forall p rest, pattern_prefix p -> img <> p +:+ rest) ->
        file_bytes (image req) = Buffer_from_base64 img).
Proof using All.
  rewrite accepted_is_generate.
  exists (edit_request Buffer_from_base64 period (replace_data_uri_prefix img)).
  assert (exists later,
    calls (snd (generate Buffer_from_base64 env w period (JStr img) st))
      = calls st ++
        CallImagesEdit (edit_request Buffer_from_base64 period
                          (replace_data_uri_prefix img)) :: later /\
    forall r, CallImagesEdit r ∉ later) as (later & Hcalls & Hlater).
  { unfold generate, try_catch, bind, lift, openai_images_edit, record_call,
      bind, lift. simpl.
    destruct (images_edit w _) as [result|e]; simpl.
    - destruct (first_image result) as [im|]; simpl.
      + destruct (truthy (string_or_undefined (b64_json im))); simpl.
        * match goal with |- context [store_or_inline _ _ _ ?p ?b ?s] =>
            destruct (store_or_inline_calls p b s) as (later & Hc & Hl);
            destruct (store_or_inline_returns Buffer_from_base64 env w p b s)
              as (r & s' & Heq)
          end.
          rewrite Heq in *. simpl in *. exists later. split; [|done].
          by rewrite Hc, <- app_assoc.
        * exists []. split; [done|]. intros r Hin. by apply not_elem_of_nil in Hin.
      + exists []. split; [done|]. intros r Hin. by apply not_elem_of_nil in Hin.
    - exists []. split; [done|]. intros r Hin. by apply not_elem_of_nil in Hin. }
  exists later. repeat split; try done.
  - unfold edit_request, promptText. simpl. eauto.
  - intros p rest Hp ->. simpl. by rewrite replace_strips.
  - intros Hno. simpl. by rewrite replace_keeps.
Qed.

(** The image service answers with a non-empty payload. *)
Variables (result : ImagesResponse) (im : Image) (others : list Image).
Variable payload : string.
Hypothesis Hedit :
  images_edit w (edit_request Buffer_from_base64 period (replace_data_uri_prefix img))
    = Returns result.
Hypothesis Hdata : data result = Some (im :: others).
Hypothesis Hb64 : b64_json im = Some payload.
Hypothesis Hpayload : payload <> "".

Lemma accepted_is_store_or_inline :
  time_travel Buffer_from_base64 env w (Returns body) st =
    store_or_inline Buffer_from_base64 env w period payload
      (after_edit (edit_request Buffer_from_base64 period
                     (replace_data_uri_prefix img)) st).
Proof using All.
  rewrite accepted_is_generate.
  apply (generate_upstream_ok _ _ _ _ _ _ result im); try done.
  unfold first_image. by rewrite Hdata.
Qed.

(** C3: with a bound store whose write succeeds, the handler performs
    the edit call and then exactly one put, under the generated key
    [timetravel-<eraId>-<digits>.png], of the decoded payload with
    content type [image/png]; it answers 200 with [success], the
    relative fetch URL as [image], [stored: true], the [filename] and
    the era. *)
Theorem stored_transform (bucket : R2Bucket) :
  IMAGES_BUCKET env = Some bucket ->
  put_fault bucket = None ->
  exists filename digits st',
    filename = "timetravel-" +:+ id period +:+ "-" +:+ digits +:+ ".png" /\
    digits <> "" /\ Str.all Str.is_digit digits = true /\
    time_travel Buffer_from_base64 env w (Returns body) st =
      (Returns (c_json (JObj [("success", JBool true);
                              ("image", JStr ("/api/images/" +:+ filename));
                              ("stored", JBool true);
                              ("filename", JStr filename);
                              ("timeperiod", period_value period)]) 200), st') /\
    calls st' =
      calls st ++
        [CallImagesEdit (edit_request Buffer_from_base64 period
                           (replace_data_uri_prefix img));
         CallPut filename (Buffer_from_base64 payload) png_metadata] /\
    objects st' =
      <[filename := stored_object bucket filename (Buffer_from_base64 payload)]>
        (objects st).
Proof using All.
  intros Hbucket Hput.
  exists (generated_key period (Date_now w)), (Str.of_N (Date_now w)).
  eexists. split; [reflexivity|].
  split; [apply of_N_nonempty|]. split; [apply of_N_digits|].
  rewrite accepted_is_store_or_inline.
  erewrite store_or_inline_put_ok by eauto.
  split; [reflexivity|]. simpl. by rewrite <- app_assoc.
Qed.

(** C1: when no store is bound, or the write throws, the handler still
    answers 200 with [success: true], the upstream payload as a
    [data:image/png;base64,] URI in [image] and [stored: false]; the
    body carries no [error]. *)
Theorem inline_fallback :
  IMAGES_BUCKET env = None \/
    (exists bucket e, IMAGES_BUCKET env = Some bucket /\ put_fault bucket = Some e) ->
  exists r st',
    time_travel Buffer_from_base64 env w (Returns body) st = (Returns r, st') /\
    status_of r = 200 /\
    json_field "success" r = Some (JBool true) /\
    json_field "image" r = Some (JStr ("data:image/png;base64," +:+ payload)) /\
    json_field "stored" r = Some (JBool false) /\
    json_field "error" r = None.
Proof using All.
  rewrite accepted_is_store_or_inline.
  intros [Hnone | (bucket & e & Hbucket & Hput)].
  - erewrite store_or_inline_unbound by eauto.
    do 2 eexists. split; [reflexivity|]. by repeat split.
  - erewrite store_or_inline_put_fails by eauto.
    do 2 eexists. split; [reflexivity|]. by repeat split.
Qed.

End AcceptedRequest.

(** ** Stored answers and their keys *)

Lemma period_value_inj p q : period_value p = period_value q -> p = q.
Proof. destruct p, q. unfold period_value. simpl. by intros [= -> -> ->]. Qed.

(** Only the storing path answers [stored: true]. *)
Lemma stored_response_inv B env w request_json st r st' :
  time_travel B env w request_json st = (Returns r, st') ->
  json_field "stored" r = Some (JBool true) ->
  exists period bucket b64,
    IMAGES_BUCKET env = Some bucket /\
    r = stored_response period (generated_key period (Date_now w)) /\
    objects st' =
      <[generated_key period (Date_now w) :=
          stored_object bucket (generated_key period (Date_now w)) (B b64)]>
        (objects st).
Proof.
  unfold time_travel, generate, store_or_inline, try_catch, bind, lift, ret, throw,
    openai_images_edit, r2_put, record_call, bind, lift, ret, throw.
  intros Heq Hstored.
  repeat (case_match; simplify_eq; simpl in *; try discriminate).
  all: eauto 10.
Qed.

(** C6 (amended): two stored answers of the transform handler, one
    after the other, carry different keys whenever their eras differ or
    the clock read different milliseconds; the later write then leaves
    the earlier object in place and the store holds both. *)
Theorem distinct_writes_distinct_keys B env1 env2 w1 w2 req1 req2 st r1 st1 r2 st2 p1 p2 :
  time_travel B env1 w1 req1 st = (Returns r1, st1) ->
  time_travel B env2 w2 req2 st1 = (Returns r2, st2) ->
  json_field "stored" r1 = Some (JBool true) ->
  json_field "stored" r2 = Some (JBool true) ->
  json_field "timeperiod" r1 = Some (period_value p1) ->
  json_field "timeperiod" r2 = Some (period_value p2) ->
  id p1 <> id p2 \/ Date_now w1 <> Date_now w2 ->
  exists f1 f2,
    json_field "filename" r1 = Some (JStr f1) /\
    json_field "filename" r2 = Some (JStr f2) /\
    f1 <> f2 /\
    is_Some (objects st1 !! f1) /\
    objects st2 !! f1 = objects st1 !! f1 /\
    is_Some (objects st2 !! f2).
Proof.
  intros Hrun1 Hrun2 Hs1 Hs2 Hp1 Hp2 Hdiff.
  destruct (stored_response_inv _ _ _ _ _ _ _ Hrun1 Hs1)
    as (q1 & b1 & x1 & _ & -> & Ho1).
  destruct (stored_response_inv _ _ _ _ _ _ _ Hrun2 Hs2)
    as (q2 & b2 & x2 & _ & -> & Ho2).
  change (Some (period_value q1) = Some (period_value p1)) in Hp1.
  change (Some (period_value q2) = Some (period_value p2)) in Hp2.
  assert (q1 = p1) as -> by (apply period_value_inj; congruence).
  assert (q2 = p2) as -> by (apply period_value_inj; congruence).
  exists (generated_key p1 (Date_now w1)), (generated_key p2 (Date_now w2)).
  assert (generated_key p1 (Date_now w1) <> generated_key p2 (Date_now w2)) as Hne.
  { intros Heq. apply generated_key_inj in Heq as [? ?]. by destruct Hdiff. }
  split; [reflexivity|]. split; [reflexivity|]. split; [done|].
  rewrite Ho2, Ho1. split; [|split].
  - rewrite lookup_insert_eq. eauto.
  - by rewrite lookup_insert_ne.
  - rewrite lookup_insert_eq. eauto.
Qed.

(** ** The media handlers *)

Lemma set_if_present_other name value h k :
  Str.lower name <> k -> set_if_present name value h !! k = h !! k.
Proof.
  intros Hne. destruct value as [v|]; simpl; [|reflexivity].
  unfold Headers_set. by rewrite lookup_insert_ne.
Qed.

Lemma writeHttpMetadata_content_type o :
  writeHttpMetadata o ∅ !! "content-type" = contentType (httpMetadata o).
Proof.
  unfold writeHttpMetadata.
  rewrite !set_if_present_other by done.
  destruct (contentType (httpMetadata o)) as [v|]; simpl; [|done].
  unfold Headers_set. simpl. by rewrite lookup_insert_eq.
Qed.

Lemma get_image_found env bucket filename st object :
  IMAGES_BUCKET env = Some bucket -> get_fault bucket = None ->
  objects st !! filename = Some object ->
  exists headers,
    fst (get_image env filename st) = Returns (new_Response (body object) headers) /\
    headers !! "content-type" = contentType (httpMetadata object) /\
    headers !! "etag" = Some (httpEtag object) /\
    headers !! "cache-control" = Some "public, max-age=31536000".
Proof.
  intros Hbucket Hfault Hsome.
  unfold get_image, try_catch, r2_get, bind, record_call.
  rewrite Hbucket. simpl. rewrite Hfault. simpl. rewrite Hsome. simpl.
  eexists. split; [reflexivity|].
  unfold Headers_set. simpl. split; [|split].
  - rewrite !lookup_insert_ne by done. apply writeHttpMetadata_content_type.
  - rewrite lookup_insert_ne by done. by rewrite lookup_insert_eq.
  - by rewrite lookup_insert_eq.
Qed.

(** What the transform handler stored is what the fetch handler serves:
    the same bytes, as [image/png]. *)
Lemma fetch_after_put env bucket k value st :
  IMAGES_BUCKET env = Some bucket -> get_fault bucket = None ->
  exists headers,
    fst (get_image env k (after_put bucket k value st))
      = Returns (new_Response value headers) /\
    headers !! "content-type" = Some "image/png".
Proof.
  intros Hbucket Hfault.
  destruct (get_image_found env bucket k (after_put bucket k value st)
              (stored_object bucket k value) Hbucket Hfault)
    as (headers & Hget & Htype & _).
  - simpl. by rewrite lookup_insert_eq.
  - eauto.
Qed.

(** C5: the media fetch handler answers 500 with a configuration error
    when no store is bound; 404 when the store holds nothing under the
    key; and otherwise 200 with the object's bytes, its stored content
    type, its entity tag and [Cache-Control: public, max-age=31536000],
    the seconds of 365 days.  (The second and third cases are those in
    which the store answers the read; a read that throws is answered
    500 by the handler's catch.) *)
Theorem get_image_contract (env : Env) (filename : string) (st : Store) :
  (IMAGES_BUCKET env = None ->
     get_image env filename st =
       (Returns (c_json (error_body "R2 bucket not configured") 500), st)) /\
  (forall bucket,
     IMAGES_BUCKET env = Some bucket -> get_fault bucket = None ->
     objects st !! filename = None ->
     fst (get_image env filename st) =
       Returns (c_json (error_body "Image not found") 404)) /\
  (forall bucket object,
     IMAGES_BUCKET env = Some bucket -> get_fault bucket = None ->
     objects st !! filename = Some object ->
     exists headers,
       fst (get_image env filename st) = Returns (new_Response (body object) headers) /\
       status_of (new_Response (body object) headers) = 200 /\
       headers !! "content-type" = contentType (httpMetadata object) /\
       headers !! "etag" = Some (httpEtag object) /\
       headers !! "cache-control" =
         Some ("public, max-age=" +:+ Str.of_N (365 * 24 * 60 * 60))).
Proof.
  unfold get_image, try_catch, r2_get, bind, record_call.
  split; [|split].
  - by intros ->.
  - intros bucket -> Hfault Hnone. simpl. rewrite Hfault. simpl. by rewrite Hnone.
  - intros bucket object Hbucket Hfault Hsome.
    destruct (get_image_found env bucket filename st object Hbucket Hfault Hsome)
      as (headers & Hget & Htype & Hetag & Hcache).
    exists headers. by repeat split.
Qed.

(** Whatever the listing returns is projected entry by entry: with a
    bound store whose listing returns [objs], the media list handler
    answers 200 with [images], one entry per listed object and in the
    same order, each [{key, url, size, uploaded}] with [url] equal to
    [/api/images/<key>], and with [count] equal to the number of
    entries of [images]; the store is not changed. *)
Theorem list_images_contract (env : Env) (bucket : R2Bucket) (st : Store)
    (objs : list R2Object) :
  IMAGES_BUCKET env = Some bucket ->
  list_result bucket (objects st) = Returns objs ->
  exists images,
    fst (list_images env st) =
      Returns (c_json (JObj [("images", JArr images);
                             ("count", JNum (Z.of_nat (length images)))]) 200) /\
    length images = length objs /\
    (forall i obj, objs !! i = Some obj ->
       images !! i =
         Some (JObj [("key", JStr (key obj));
                     ("url", JStr ("/api/images/" +:+ key obj));
                     ("size", JNum (Z.of_N (size obj)));
                     ("uploaded", JDate (uploaded obj))])) /\
    objects (snd (list_images env st)) = objects st.
Proof.
  intros Hbucket Hlist.
  unfold list_images, try_catch, r2_list, bind, record_call.
  rewrite Hbucket. simpl. rewrite Hlist. simpl.
  exists (map image_entry objs). split; [reflexivity|].
  split; [by rewrite length_map|]. split; [|reflexivity].
  intros i obj Hi. by rewrite list_lookup_fmap, Hi.
Qed.

(** ** The era listing *)


(** * Worked examples *)

(** ** Where the stated claims fail *)


(** C4, as stated, fails: an unknown era sent with image data to a
    Worker without a credential is answered 500, not 400. *)
Lemma unknown_era_without_credential_is_500 :
  find_period (JStr "atlantis") = None /\
  exists r,
    time_travel Base64.decode Sample.env_no_key (Sample.world 0)
      (Sample.request "atlantis" "iVBORw0KGgo=") Sample.empty
      = (Returns r, Sample.empty) /\
    r = c_json (error_details "OpenAI API key not configured"
                  "Please add OPENAI_API_KEY to your environment variables") 500 /\
    status_of r <> 400.
Proof.
  split; [reflexivity|]. eexists. split; [reflexivity|]. by split.
Qed.

(** C6, as stated, fails: two requests for the same era whose clock
    reads fall in the same millisecond are both answered [stored: true]
    under one and the same key, and the second write replaces the
    object of the first. *)
Lemma same_millisecond_same_key :
  let w1 := Sample.world_with 1700000000000 "aGVsbG8=" in
  let w2 := Sample.world_with 1700000000000 "d29ybGQ=" in
  let req := Sample.request "medieval" "iVBORw0KGgo=" in
  let f := "timetravel-medieval-1700000000000.png" in
  let run1 := time_travel Base64.decode Sample.env w1 req Sample.empty in
  let run2 := time_travel Base64.decode Sample.env w2 req (snd run1) in
  fst run1 = Returns (stored_response Sample.medieval f) /\
  fst run2 = Returns (stored_response Sample.medieval f) /\
  body <$> objects (snd run1) !! f = Some (Base64.decode "aGVsbG8=") /\
  body <$> objects (snd run2) !! f = Some (Base64.decode "d29ybGQ=") /\
  Base64.decode "aGVsbG8=" <> Base64.decode "d29ybGQ=" /\
  base.size (objects (snd run2)) = 1%nat.
Proof. vm_compute. by repeat split. Qed.

(** C7, as stated, fails: [data:image/svg+xml;base64,] is a data-URI
    prefix, yet the pattern does not match it ([+] is not a word
    character); the whole input is handed to the decoder and the bytes
    submitted are not the decoding of the payload. *)
Lemma svg_prefix_not_stripped :
  let input := "data:image/svg+xml;base64,PHN2Zy8+" in
  data_uri_prefix "data:image/svg+xml;base64," /\
  input = "data:image/svg+xml;base64," +:+ "PHN2Zy8+" /\
  replace_data_uri_prefix input = input /\
  head (calls (snd (time_travel Base64.decode Sample.env (Sample.world 0)
                      (Sample.request "medieval" input) Sample.empty)))
    = Some (CallImagesEdit (edit_request Base64.decode Sample.medieval input)) /\
  file_bytes (image (edit_request Base64.decode Sample.medieval input))
    <> Base64.decode "PHN2Zy8+".
Proof.
  split; [by exists "image/svg+xml"|].
  vm_compute. by repeat split.
Qed.

(** C10: a request whose [imageData] is the empty string is not
    answered 400 when its [timeperiod] is an object with an own
    [toString] property: the log line that precedes the check converts
    [timeperiod] to a string, the conversion throws, and the outer
    catch answers 500. *)
Lemma unprintable_timeperiod_is_500 :
  let body := JObj [("timeperiod", JObj [("toString", JNum 1)]);
                    ("imageData", JStr "")] in
  get_prop body "imageData" = Returns (JStr "") /\
  truthy (JStr "") = false /\
  time_travel Base64.decode Sample.env (Sample.world 0) (Returns body) Sample.empty =
    (Returns (c_json (error_body "Failed to process request") 500), Sample.empty).
Proof. by repeat split. Qed.

(** ** The theorems at concrete requests *)


Lemma unknown_era_rejected_witness :
  exists msg,
    time_travel Base64.decode Sample.env (Sample.world 0)
      (Sample.request "atlantis" "iVBORw0KGgo=") Sample.empty =
      (Returns (c_json (error_body msg) 400), Sample.empty).
Proof.
  apply (unknown_era_rejected Base64.decode Sample.env (Sample.world 0)
           (Sample.body "atlantis" "iVBORw0KGgo=")
           (JStr "atlantis") (JStr "iVBORw0KGgo=")).
  - reflexivity.
  - reflexivity.
  - reflexivity.
  - reflexivity.
  - left. reflexivity.
Defined.

Lemma edit_request_payload_witness :
  exists req,
    head (calls (snd (time_travel Base64.decode Sample.env (Sample.world 0)
                        (Sample.request "medieval" "data:image/png;base64,iVBORw0KGgo=")
                        Sample.empty)))
      = Some (CallImagesEdit req) /\
    moderation req = "low" /\
    file_bytes (image req) = Base64.decode "iVBORw0KGgo=".
Proof.
  destruct (edit_request_payload Base64.decode Sample.env (Sample.world 0)
              Sample.empty
              (Sample.body "medieval" "data:image/png;base64,iVBORw0KGgo=")
              Sample.medieval "data:image/png;base64,iVBORw0KGgo=" "sk-test")
    as (req & later & Hcalls & _ & _ & Hlow & _ & _ & _ & Hstrip & _).
  - reflexivity.
  - simpl. tauto.
  - reflexivity.
  - discriminate.
  - reflexivity.
  - discriminate.
  - exists req. unfold Sample.request. rewrite Hcalls.
    split; [reflexivity|]. split; [exact Hlow|].
    apply (Hstrip "data:image/png;base64,"); [|reflexivity].
    exists "png". split; [discriminate|]. split; reflexivity.
Defined.

Lemma stored_transform_witness :
  exists filename digits st',
    filename = "timetravel-" +:+ "medieval" +:+ "-" +:+ digits +:+ ".png" /\
    digits <> "" /\ Str.all Str.is_digit digits = true /\
    time_travel Base64.decode Sample.env (Sample.world 1700000000000)
      (Sample.request "medieval" "iVBORw0KGgo=") Sample.empty =
      (Returns (c_json (JObj [("success", JBool true);
                              ("image", JStr ("/api/images/" +:+ filename));
                              ("stored", JBool true);
                              ("filename", JStr filename);
                              ("timeperiod", period_value Sample.medieval)]) 200), st') /\
    calls st' =
      calls Sample.empty ++
        [CallImagesEdit (edit_request Base64.decode Sample.medieval
                           (replace_data_uri_prefix "iVBORw0KGgo="));
         CallPut filename (Base64.decode "aGVsbG8=") png_metadata] /\
    objects st' =
      <[filename := stored_object Sample.bucket filename (Base64.decode "aGVsbG8=")]>
        (objects Sample.empty).
Proof.
  apply (stored_transform Base64.decode Sample.env (Sample.world 1700000000000)
           Sample.empty (Sample.body "medieval" "iVBORw0KGgo=") Sample.medieval
           "iVBORw0KGgo=" "sk-test")
    with (result := mkImagesResponse (Some [mkImage (Some "aGVsbG8=")]))
         (im := mkImage (Some "aGVsbG8=")) (others := []).
  - reflexivity.
  - simpl. tauto.
  - reflexivity.
  - discriminate.
  - reflexivity.
  - discriminate.
  - reflexivity.
  - reflexivity.
  - reflexivity.
  - discriminate.
  - reflexivity.
  - reflexivity.
Defined.

Lemma inline_fallback_witness :
  exists r st',
    time_travel Base64.decode Sample.env_read_only (Sample.world 1700000000000)
      (Sample.request "medieval" "iVBORw0KGgo=") Sample.empty = (Returns r, st') /\
    status_of r = 200 /\
    json_field "success" r = Some (JBool true) /\
    json_field "image" r = Some (JStr ("data:image/png;base64," +:+ "aGVsbG8=")) /\
    json_field "stored" r = Some (JBool false) /\
    json_field "error" r = None.
Proof.
  apply (inline_fallback Base64.decode Sample.env_read_only
           (Sample.world 1700000000000) Sample.empty
           (Sample.body "medieval" "iVBORw0KGgo=") Sample.medieval
           "iVBORw0KGgo=" "sk-test")
    with (result := mkImagesResponse (Some [mkImage (Some "aGVsbG8=")]))
         (im := mkImage (Some "aGVsbG8=")) (others := []).
  - reflexivity.
  - simpl. tauto.
  - reflexivity.
  - discriminate.
  - reflexivity.
  - discriminate.
  - reflexivity.
  - reflexivity.
  - reflexivity.
  - discriminate.
  - right. exists Sample.read_only_bucket, (Error "put failed").
    split; reflexivity.
Defined.

Lemma distinct_writes_distinct_keys_witness :
  let w1 := Sample.world_with 1700000000000 "aGVsbG8=" in
  let w2 := Sample.world_with 1700000000001 "d29ybGQ=" in
  let req := Sample.request "medieval" "iVBORw0KGgo=" in
  let run1 := time_travel Base64.decode Sample.env w1 req Sample.empty in
  let run2 := time_travel Base64.decode Sample.env w2 req (snd run1) in
  exists f1 f2,
    json_field "filename" (stored_response Sample.medieval
                             "timetravel-medieval-1700000000000.png") = Some (JStr f1) /\
    json_field "filename" (stored_response Sample.medieval
                             "timetravel-medieval-1700000000001.png") = Some (JStr f2) /\
    f1 <> f2 /\
    is_Some (objects (snd run1) !! f1) /\
    objects (snd run2) !! f1 = objects (snd run1) !! f1 /\
    is_Some (objects (snd run2) !! f2).
Proof.
  intros w1 w2 req run1 run2.
  apply (distinct_writes_distinct_keys Base64.decode Sample.env Sample.env
           w1 w2 req req Sample.empty
           (stored_response Sample.medieval "timetravel-medieval-1700000000000.png")
           (snd run1)
           (stored_response Sample.medieval "timetravel-medieval-1700000000001.png")
           (snd run2) Sample.medieval Sample.medieval).
  - vm_compute. reflexivity.
  - vm_compute. reflexivity.
  - reflexivity.
  - reflexivity.
  - reflexivity.
  - reflexivity.
  - right. vm_compute. discriminate.
Defined.

Lemma get_image_contract_witness :
  exists headers,
    fst (get_image Sample.env "timetravel-future-1700000000000.png" Sample.one_image)
      = Returns (new_Response (body Sample.stored_png) headers) /\
    status_of (new_Response (body Sample.stored_png) headers) = 200 /\
    headers !! "content-type" = Some "image/png" /\
    headers !! "etag" = Some "etag-1" /\
    headers !! "cache-control" = Some "public, max-age=31536000".
Proof.
  apply (proj2 (proj2 (get_image_contract Sample.env
                         "timetravel-future-1700000000000.png" Sample.one_image))
           Sample.bucket Sample.stored_png).
  - reflexivity.
  - reflexivity.
  - vm_compute. reflexivity.
Defined.

Lemma list_images_contract_witness :
  exists images,
    fst (list_images Sample.env Sample.one_image) =
      Returns (c_json (JObj [("images", JArr images);
                             ("count", JNum (Z.of_nat (length images)))]) 200) /\
    length images = length [Sample.stored_png] /\
    (forall i obj, [Sample.stored_png] !! i = Some obj ->
       images !! i =
         Some (JObj [("key", JStr (key obj));
                     ("url", JStr ("/api/images/" +:+ key obj));
                     ("size", JNum (Z.of_N (size obj)));
                     ("uploaded", JDate (uploaded obj))])) /\
    objects (snd (list_images Sample.env Sample.one_image)) = objects Sample.one_image.
Proof.
  apply (list_images_contract Sample.env Sample.bucket Sample.one_image
           [Sample.stored_png]).
  - reflexivity.
  - vm_compute. reflexivity.
Defined.


(** * Further properties of the handlers *)

(** ** Every path of the transform handler *)

(** The handler always answers, and its effects are one of four: none;
    the edit call; the edit call and a refused put; the edit call and a
    put that stored the image. *)
Lemma time_travel_cases B env w request_json st :
  exists r st',
    time_travel B env w request_json st = (Returns r, st') /\
    ((st' = st /\ (status_of r = 400 \/ status_of r = 500)) \/
     (exists q, st' = after_edit q st /\
                (status_of r = 500 \/
                 (status_of r = 200 /\ IMAGES_BUCKET env = None))) \/
     (exists q k v, st' = after_put_attempt k v (after_edit q st) /\
                    status_of r = 200 /\
                    json_field "stored" r = Some (JBool false)) \/
     (exists q b p v,
         IMAGES_BUCKET env = Some b /\
         st' = after_put b (generated_key p (Date_now w)) v (after_edit q st) /\
         r = stored_response p (generated_key p (Date_now w)))).
Proof.
  unfold time_travel, template_literal, generate, store_or_inline,
    imageData_replace, try_catch, bind, lift, ret, throw,
    openai_images_edit, r2_put, record_call, bind, lift, ret, throw.
  repeat (case_match; simplify_eq; simpl in *; try discriminate);
    do 2 eexists; (split; [reflexivity|]); simpl.
  all: try (left; split; [reflexivity|]; auto; fail).
  all: try (right; left; eexists; split; [reflexivity|]; auto; fail).
  all: try (right; right; left; do 3 eexists; split; [reflexivity|]; auto; fail).
  all: try (right; right; right; do 4 eexists; split; [first [eassumption|reflexivity]|];
            split; reflexivity).
Qed.

(** X1: a body that cannot be parsed, a [null] body, and a [timeperiod]
    that cannot be converted to a string all end in the outer catch:
    the answer is 500 "Failed to process request", whatever the
    environment, and nothing is called or stored. *)
Theorem unreadable_request_is_500 B env w request_json st :
  (exists e, request_json = Throws e) \/
  request_json = Returns JNull \/
  (exists body timeperiod imageData,
      request_json = Returns body /\
      get_prop body "timeperiod" = Returns timeperiod /\
      get_prop body "imageData" = Returns imageData /\
      to_string_ok timeperiod = false) ->
  time_travel B env w request_json st =
    (Returns (c_json (error_body "Failed to process request") 500), st).
Proof.
  unfold time_travel, template_literal, try_catch, bind, lift.
  intros [[e ->] | [-> | (body & tp & img & -> & Htp & Himg & Hbad)]].
  - reflexivity.
  - reflexivity.
  - by rewrite Htp, Himg, Hbad.
Qed.

(** X2: image data that is truthy but not a string (a number, [true],
    an array, an object) passes the validation and fails at
    [imageData.replace]; with a known era and a credential the answer
    is 500 "Failed to generate image with OpenAI" although the image
    service was never called; nothing is stored. *)
Theorem non_string_image_is_500 B env w body period imageData st :
  get_prop body "timeperiod" = Returns (JStr (id period)) ->
  In period TIME_PERIODS ->
  get_prop body "imageData" = Returns imageData ->
  truthy imageData = true ->
  (forall s, imageData <> JStr s) ->
  truthy (string_or_undefined (OPENAI_API_KEY env)) = true ->
  exists details,
    details <> "" /\
    time_travel B env w (Returns body) st =
      (Returns (c_json (error_details "Failed to generate image with OpenAI"
                          details) 500), st).
Proof.
  intros Htp Hin Himg Htruthy Hnot Hkey.
  rewrite (time_travel_accepted B env w body period imageData st) by done.
  exists "imageData.replace is not a function". split; [done|].
  unfold generate, imageData_replace, try_catch, bind, lift.
  destruct imageData; try reflexivity. by destruct (Hnot s).
Qed.

(** X3: the effects of one request are bounded: the handler invokes
    nothing, or [openai.images.edit] once, or [openai.images.edit] once
    and then one put with content type [image/png]; it never invokes
    the SDK method a second time, never reads and never lists (what the
    SDK re-sends inside one invocation is the SDK's doing); the status
    is 200, 400 or 500. *)
Theorem transform_calls_bounded B env w request_json st :
  exists r st' new,
    time_travel B env w request_json st = (Returns r, st') /\
    calls st' = calls st ++ new /\
    (new = [] \/
     (exists q, new = [CallImagesEdit q]) \/
     (exists q k v, new = [CallImagesEdit q; CallPut k v png_metadata])) /\
    (status_of r = 200 \/ status_of r = 400 \/ status_of r = 500).
Proof.
  destruct (time_travel_cases B env w request_json st)
    as (r & st' & Hrun & Hcases).
  exists r, st'.
  destruct Hcases as [[-> Hs] | [(q & -> & Hs) | [(q & k & v & -> & Hs & _)
                     | (q & b & p & v & _ & -> & ->)]]].
  - exists []. rewrite app_nil_r. intuition.
  - exists [CallImagesEdit q]. simpl. intuition eauto.
  - exists [CallImagesEdit q; CallPut k v png_metadata]. simpl.
    rewrite <- app_assoc. intuition eauto 10.
  - exists [CallImagesEdit q; CallPut (generated_key p (Date_now w)) v png_metadata].
    simpl. rewrite <- app_assoc. intuition eauto 10.
Qed.

(** X4: an error answer never comes with a write: when the status is
    not 200 the objects of the store are untouched and no put was
    attempted; a 400 answer leaves the whole state, log included, as it
    was. *)
Theorem error_answers_store_nothing B env w request_json st r st' :
  time_travel B env w request_json st = (Returns r, st') ->
  status_of r <> 200 ->
  objects st' = objects st /\
  (forall k v m, CallPut k v m ∈ calls st' -> CallPut k v m ∈ calls st) /\
  (status_of r = 400 -> st' = st).
Proof.
  intros Hrun Hstatus.
  destruct (time_travel_cases B env w request_json st)
    as (r0 & st0 & Hrun0 & Hcases).
  rewrite Hrun in Hrun0. injection Hrun0 as <- <-.
  destruct Hcases as [[-> Hs] | [(q & -> & Hs) | [(q & k & v & -> & Hs & _)
                     | (q & b & p & v & _ & -> & ->)]]].
  - done.
  - split; [reflexivity|]. split.
    + intros k v m Hin. simpl in Hin.
      apply elem_of_app in Hin as [Hin|Hin]; [done|].
      apply list_elem_of_singleton in Hin. discriminate.
    + intros H400. destruct Hs as [Hs|[Hs _]]; rewrite Hs in H400; discriminate.
  - by destruct Hstatus.
  - by destruct Hstatus.
Qed.

(** X5: no request deletes an object: every key present before is
    present after, and the store grows by at most one object. *)
Theorem transform_never_deletes B env w request_json st :
  let st' := snd (time_travel B env w request_json st) in
  (forall k, is_Some (objects st !! k) -> is_Some (objects st' !! k)) /\
  (base.size (objects st') <= S (base.size (objects st)))%nat.
Proof.
  destruct (time_travel_cases B env w request_json st)
    as (r & st' & Hrun & Hcases).
  rewrite Hrun. simpl.
  destruct Hcases as [[-> Hs] | [(q & -> & Hs) | [(q & k & v & -> & Hs & _)
                     | (q & b & p & v & _ & -> & ->)]]]; simpl.
  1-3: split; [done|lia].
  split.
  - intros k Hk.
    destruct (decide (generated_key p (Date_now w) = k)) as [<-|Hne].
    + rewrite lookup_insert_eq. eauto.
    + by rewrite lookup_insert_ne.
  - destruct (objects st !! generated_key p (Date_now w)) eqn:Hold.
    + erewrite map_size_insert_Some by eauto. lia.
    + rewrite map_size_insert_None by done. lia.
Qed.

(** ** Accepted requests: the upstream and storage outcomes *)

Section UpstreamOutcomes.

Variable Buffer_from_base64 : string -> list byte.

Variables (env : Env) (w : World) (st : Store).
Variables (body : jsval) (period : TimePeriod) (img credential : string).
Hypothesis Htimeperiod : get_prop body "timeperiod" = Returns (JStr (id period)).
Hypothesis Hknown : In period TIME_PERIODS.
Hypothesis HimageData : get_prop body "imageData" = Returns (JStr img).
Hypothesis Himg : img <> "".
Hypothesis Hkey : OPENAI_API_KEY env = Some credential.
Hypothesis Hcredential : credential <> "".

Let req := edit_request Buffer_from_base64 period (replace_data_uri_prefix img).

(** X6: when the invocation of [openai.images.edit] throws, the answer
    is 500 "Failed to generate image with OpenAI" whose details are the
    error's message, or "Unknown OpenAI error" when the message is
    empty; the handler does not invoke the SDK method again and puts
    nothing. *)
Theorem upstream_failure_is_500 (e : JsError) :
  images_edit w req = Throws e ->
  time_travel Buffer_from_base64 env w (Returns body) st =
    (Returns (c_json (error_details "Failed to generate image with OpenAI"
                        (if Str.is_empty (message e) then "Unknown OpenAI error"
                         else message e)) 500),
     after_edit req st).
Proof using All.
  intros Hedit.
  rewrite (accepted_is_generate Buffer_from_base64 env w st body period img credential)
    by done.
  unfold generate, try_catch, bind, lift, openai_images_edit, record_call, bind, lift.
  simpl. fold req. rewrite Hedit. simpl.
  by destruct (Str.is_empty (message e)).
Qed.

(** X7: an upstream answer without [data], or with an empty [data]
    array, is answered 500 with the details "OpenAI returned invalid
    response format": the error thrown for it is caught by the handler
    of upstream failures; nothing is put. *)
Theorem upstream_without_data_is_500 (result : ImagesResponse) :
  images_edit w req = Returns result ->
  data result = None \/ data result = Some [] ->
  time_travel Buffer_from_base64 env w (Returns body) st =
    (Returns (c_json (error_details "Failed to generate image with OpenAI"
                        "OpenAI returned invalid response format") 500),
     after_edit req st).
Proof using All.
  intros Hedit Hdata.
  rewrite (accepted_is_generate Buffer_from_base64 env w st body period img credential)
    by done.
  unfold generate, try_catch, bind, lift, openai_images_edit, record_call, bind, lift.
  simpl. fold req. rewrite Hedit. unfold first_image.
  by destruct Hdata as [-> | ->].
Qed.

(** X8: an upstream answer whose first entry has no [b64_json], or an
    empty one, is answered 500 "No image returned from OpenAI"; nothing
    is put, whether or not a store is bound. *)
Theorem upstream_without_payload_is_500 (result : ImagesResponse) (im : Image)
    (others : list Image) :
  images_edit w req = Returns result ->
  data result = Some (im :: others) ->
  b64_json im = None \/ b64_json im = Some "" ->
  time_travel Buffer_from_base64 env w (Returns body) st =
    (Returns (c_json (error_details "No image returned from OpenAI"
                        "The API response did not include image data") 500),
     after_edit req st).
Proof using All.
  intros Hedit Hdata Hb64.
  rewrite (accepted_is_generate Buffer_from_base64 env w st body period img credential)
    by done.
  unfold generate, try_catch, bind, lift, openai_images_edit, record_call, bind, lift.
  simpl. fold req. rewrite Hedit. unfold first_image. rewrite Hdata.
  by destruct Hb64 as [-> | ->].
Qed.

Variables (result : ImagesResponse) (im : Image) (others : list Image).
Variable payload : string.
Hypothesis Hedit : images_edit w req = Returns result.
Hypothesis Hdata : data result = Some (im :: others).
Hypothesis Hb64 : b64_json im = Some payload.
Hypothesis Hpayload : payload <> "".

(** X9: the two fallbacks differ in what they report and do.  A put
    that throws is attempted once, under the generated key, and its
    message is returned as [storageError]; with no store bound no put
    is attempted and the body has no [storageError]. *)
Theorem storage_failure_is_reported :
  (forall bucket e,
      IMAGES_BUCKET env = Some bucket -> put_fault bucket = Some e ->
      exists r,
        time_travel Buffer_from_base64 env w (Returns body) st =
          (Returns r, after_put_attempt (generated_key period (Date_now w))
                        (Buffer_from_base64 payload) (after_edit req st)) /\
        json_field "storageError" r = Some (JStr (message e))) /\
  (IMAGES_BUCKET env = None ->
      exists r,
        time_travel Buffer_from_base64 env w (Returns body) st =
          (Returns r, after_edit req st) /\
        json_field "storageError" r = None).
Proof using All.
  rewrite (accepted_is_store_or_inline Buffer_from_base64 env w st body period
             img credential Htimeperiod Hknown HimageData Himg Hkey Hcredential
             result im others payload Hedit Hdata Hb64 Hpayload).
  split.
  - intros bucket e Hbucket Hput.
    erewrite store_or_inline_put_fails by eauto. eauto.
  - intros Hnone. erewrite store_or_inline_unbound by eauto. eauto.
Qed.

(** X10: what a stored transform returns can be fetched: the [image]
    URL is [/api/images/] followed by [filename], and the fetch handler
    run on that filename in the resulting store serves exactly the
    decoded upstream payload, as [image/png]. *)
Theorem stored_image_is_served (bucket : R2Bucket) :
  IMAGES_BUCKET env = Some bucket ->
  put_fault bucket = None ->
  get_fault bucket = None ->
  exists r st' filename headers,
    time_travel Buffer_from_base64 env w (Returns body) st = (Returns r, st') /\
    json_field "filename" r = Some (JStr filename) /\
    json_field "image" r = Some (JStr ("/api/images/" +:+ filename)) /\
    fst (get_image env filename st')
      = Returns (new_Response (Buffer_from_base64 payload) headers) /\
    headers !! "content-type" = Some "image/png".
Proof using All.
  intros Hbucket Hput Hget.
  rewrite (accepted_is_store_or_inline Buffer_from_base64 env w st body period
             img credential Htimeperiod Hknown HimageData Himg Hkey Hcredential
             result im others payload Hedit Hdata Hb64 Hpayload).
  erewrite store_or_inline_put_ok by eauto.
  destruct (fetch_after_put env bucket (generated_key period (Date_now w))
              (Buffer_from_base64 payload) (after_edit req st) Hbucket Hget)
    as (headers & Hfetch & Htype).
  do 4 eexists. split; [reflexivity|]. split; [reflexivity|].
  split; [reflexivity|]. split; [exact Hfetch|exact Htype].
Qed.

End UpstreamOutcomes.

(** ** The media handlers: failures and effects *)

(** X11: a read that throws is answered 500 "Failed to retrieve image"
    with the error's message as details, also when the object exists. *)
Theorem get_image_read_failure env bucket e filename st :
  IMAGES_BUCKET env = Some bucket ->
  get_fault bucket = Some e ->
  fst (get_image env filename st) =
    Returns (c_json (error_details "Failed to retrieve image" (message e)) 500).
Proof.
  intros Hbucket Hfault.
  unfold get_image, try_catch, r2_get, bind, record_call.
  rewrite Hbucket. simpl. by rewrite Hfault.
Qed.

(** X12: the list handler answers 500 "R2 bucket not configured" when
    no store is bound, without calling anything, and 500 "Failed to
    list images" with the error's message when the listing throws. *)
Theorem list_images_failures env st :
  (IMAGES_BUCKET env = None ->
     list_images env st =
       (Returns (c_json (error_body "R2 bucket not configured") 500), st)) /\
  (forall bucket e,
     IMAGES_BUCKET env = Some bucket ->
     list_result bucket (objects st) = Throws e ->
     fst (list_images env st) =
       Returns (c_json (error_details "Failed to list images" (message e)) 500)).
Proof.
  unfold list_images, try_catch, r2_list, bind, record_call. split.
  - by intros ->.
  - intros bucket e -> Hlist. simpl. by rewrite Hlist.
Qed.

(** X13: the media handlers only read: whatever the environment and the
    outcome, the objects of the store are unchanged, the fetch handler
    makes at most one [get] and the list handler at most one [list]. *)
Theorem media_handlers_read_only env filename st :
  objects (snd (get_image env filename st)) = objects st /\
  objects (snd (list_images env st)) = objects st /\
  (calls (snd (get_image env filename st)) = calls st \/
   calls (snd (get_image env filename st)) = calls st ++ [CallGet filename]) /\
  (calls (snd (list_images env st)) = calls st \/
   calls (snd (list_images env st)) = calls st ++ [CallList]).
Proof.
  unfold get_image, list_images, try_catch, r2_get, r2_list, bind, record_call, ret, throw.
  repeat (case_match; simplify_eq; simpl in *); auto.
Qed.

(** X14: the links of a listing resolve: when the listed objects are
    held under their keys and reads do not fail, the [url] of an entry
    is [/api/images/<key>] and fetching [<key>] after the listing
    serves that object's bytes. *)
Theorem listed_urls_resolve env bucket st objs obj :
  IMAGES_BUCKET env = Some bucket ->
  list_result bucket (objects st) = Returns objs ->
  get_fault bucket = None ->
  obj ∈ objs ->
  objects st !! key obj = Some obj ->
  exists images headers,
    fst (list_images env st) =
      Returns (c_json (JObj [("images", JArr images);
                             ("count", JNum (Z.of_nat (length images)))]) 200) /\
    JObj [("key", JStr (key obj));
          ("url", JStr ("/api/images/" +:+ key obj));
          ("size", JNum (Z.of_N (size obj)));
          ("uploaded", JDate (uploaded obj))] ∈ images /\
    fst (get_image env (key obj) (snd (list_images env st)))
      = Returns (new_Response (body obj) headers).
Proof.
  intros Hbucket Hlist Hfault Hin Hheld.
  assert (objects (snd (list_images env st)) !! key obj = Some obj) as Hheld'.
  { unfold list_images, try_catch, r2_list, bind, record_call.
    rewrite Hbucket. simpl. by rewrite Hlist. }
  destruct (get_image_found env bucket (key obj) (snd (list_images env st)) obj
              Hbucket Hfault Hheld') as (headers & Hget & _).
  exists (map image_entry objs), headers. split; [|split].
  - unfold list_images, try_catch, r2_list, bind, record_call.
    rewrite Hbucket. simpl. by rewrite Hlist.
  - by apply (list_elem_of_fmap_2 image_entry).
  - exact Hget.
Qed.

(** ** The pure parts: lookup, prefix, key, prompt *)

(** X15: the era lookup accepts exactly the strings that are the
    identifier of a table entry, and returns that entry: the comparison
    is strict, so no number, boolean, array or object is ever accepted,
    and since the identifiers are pairwise distinct no entry is
    shadowed by another. *)
Theorem find_period_spec v p :
  find_period v = Some p <-> In p TIME_PERIODS /\ v = JStr (id p).
Proof.
  split.
  - intros H. by destruct (find_period_Some v p H).
  - intros [Hin ->]. by apply find_period_id.
Qed.

(** X16: the prefix replacement removes at most one prefix and nothing
    else: its result is always a suffix of the input, and what was cut
    off is either nothing or one prefix of the pattern. *)
Theorem replace_cuts_one_prefix s :
  exists cut,
    s = cut +:+ replace_data_uri_prefix s /\
    (cut = "" \/ pattern_prefix cut).
Proof.
  unfold replace_data_uri_prefix.
  destruct (Str.strip_literal "data:image/" s) as [r|] eqn:Hr;
    [|exists ""; by split; [|left]].
  destruct (Str.span Str.is_word r) as [w r'] eqn:Hspan.
  destruct (Str.is_empty w) eqn:Hw; [exists ""; by split; [|left]|].
  destruct (Str.strip_literal ";base64," r') as [rest|] eqn:Hrest;
    [|exists ""; by split; [|left]].
  apply strip_literal_Some in Hr, Hrest.
  apply span_spec in Hspan as (-> & Hall & _). subst.
  exists ("data:image/" +:+ w +:+ ";base64,"). split.
  - by rewrite !app_assoc_str.
  - right. exists w. split; [by apply is_empty_false|done].
Qed.

(** X17: a generated key is made of lower-case letters, digits, [-] and
    [.] only, for every era of the table and every clock value: it has
    no [/] and needs no escaping in the fetch URL. *)
Theorem generated_key_chars period timestamp :
  In period TIME_PERIODS ->
  Str.all is_key_char (generated_key period timestamp) = true.
Proof.
  intros Hin. unfold generated_key. rewrite !all_app.
  assert (Str.all is_key_char (id period) = true) as ->.
  { unfold TIME_PERIODS in Hin. simpl in Hin.
    repeat (destruct Hin as [<-|Hin]; [reflexivity|]). destruct Hin. }
  assert (Str.all is_key_char (Str.of_N timestamp) = true) as ->.
  { apply (all_impl Str.is_digit); [|apply of_N_digits].
    intros c Hc. unfold is_key_char. unfold Str.is_digit in Hc.
    rewrite Hc. by rewrite orb_true_r. }
  reflexivity.
Qed.

(** X18: the inline fallback round-trips through the handler's own
    pattern: the data URI built around a payload, sent back as image
    data, is cut down to exactly that payload before decoding. *)
Theorem inline_image_round_trip payload :
  replace_data_uri_prefix ("data:image/png;base64," +:+ payload) = payload.
Proof.
  apply replace_strips. exists "png". by repeat split.
Qed.

Lemma length_app_str (a b : string) :
  String.length (a +:+ b) = (String.length a + String.length b)%nat.
Proof. induction a as [|c a IH]; str_simpl; [reflexivity|]. by rewrite IH. Qed.

Lemma app_same_length_inj (a1 a2 b1 b2 : string) :
  String.length a1 = String.length a2 ->
  a1 +:+ b1 = a2 +:+ b2 -> a1 = a2.
Proof.
  revert a2. induction a1 as [|c a1 IH]; intros [|d a2] Hlen Happ;
    str_simpl; try discriminate; [reflexivity|].
  injection Happ as -> Happ. injection Hlen as Hlen. f_equal. eauto.
Qed.

Lemma promptText_inj p q : promptText p = promptText q -> prompt p = prompt q.
Proof.
  unfold promptText. intros H.
  pose proof (f_equal String.length H) as Hlen.
  rewrite !length_app_str in Hlen.
  apply app_inv_head_str in H.
  apply app_same_length_inj in H; [done|]. lia.
Qed.

(** X19: the instruction is specific to the era: two entries of the
    table with the same instruction text are the same entry. *)
Theorem promptText_per_era p q :
  In p TIME_PERIODS -> In q TIME_PERIODS ->
  promptText p = promptText q -> p = q.
Proof.
  intros Hp Hq H. apply promptText_inj in H.
  unfold TIME_PERIODS in Hp, Hq. simpl in Hp, Hq.
  repeat (destruct Hp as [<-|Hp]);
    repeat (destruct Hq as [<-|Hq]); try reflexivity; try discriminate;
    try destruct Hp; try destruct Hq.
Qed.

(** ** The further properties at concrete requests *)

Lemma unreadable_request_is_500_witness :
  time_travel Base64.decode Sample.env (Sample.world 0) (Returns JNull) Sample.empty =
    (Returns (c_json (error_body "Failed to process request") 500), Sample.empty).
Proof.
  apply (unreadable_request_is_500 Base64.decode Sample.env (Sample.world 0)
           (Returns JNull) Sample.empty).
  right. left. reflexivity.
Defined.

Lemma non_string_image_is_500_witness :
  exists details,
    details <> "" /\
    time_travel Base64.decode Sample.env (Sample.world 0)
      (Returns (JObj [("timeperiod", JStr "medieval"); ("imageData", JNum 5)]))
      Sample.empty =
      (Returns (c_json (error_details "Failed to generate image with OpenAI"
                          details) 500), Sample.empty).
Proof.
  apply (non_string_image_is_500 Base64.decode Sample.env (Sample.world 0)
           (JObj [("timeperiod", JStr "medieval"); ("imageData", JNum 5)])
           Sample.medieval (JNum 5) Sample.empty).
  - reflexivity.
  - simpl. tauto.
  - reflexivity.
  - reflexivity.
  - discriminate.
  - reflexivity.
Defined.

Lemma error_answers_store_nothing_witness :
  objects Sample.one_image = objects Sample.one_image /\
  (forall k v m, CallPut k v m ∈ calls Sample.one_image ->
                 CallPut k v m ∈ calls Sample.one_image) /\
  (status_of (c_json (error_body "Invalid time period") 400) = 400 ->
   Sample.one_image = Sample.one_image).
Proof.
  apply (error_answers_store_nothing Base64.decode Sample.env (Sample.world 0)
           (Sample.request "atlantis" "iVBORw0KGgo=") Sample.one_image
           (c_json (error_body "Invalid time period") 400) Sample.one_image).
  - reflexivity.
  - discriminate.
Defined.

Lemma upstream_failure_is_500_witness :
  fst (time_travel Base64.decode Sample.env
         (Sample.world_failing 0 "quota exceeded")
         (Sample.request "medieval" "iVBORw0KGgo=") Sample.empty) =
    Returns (c_json (error_details "Failed to generate image with OpenAI"
                       "quota exceeded") 500).
Proof.
  unfold Sample.request.
  rewrite (upstream_failure_is_500 Base64.decode Sample.env
             (Sample.world_failing 0 "quota exceeded") Sample.empty
             (Sample.body "medieval" "iVBORw0KGgo=") Sample.medieval
             "iVBORw0KGgo=" "sk-test") with (e := Error "quota exceeded").
  - reflexivity.
  - reflexivity.
  - simpl. tauto.
  - reflexivity.
  - discriminate.
  - reflexivity.
  - discriminate.
  - reflexivity.
Defined.

Lemma upstream_without_data_is_500_witness :
  fst (time_travel Base64.decode Sample.env
         (Sample.world_answering 0 (mkImagesResponse (Some [])))
         (Sample.request "medieval" "iVBORw0KGgo=") Sample.empty) =
    Returns (c_json (error_details "Failed to generate image with OpenAI"
                       "OpenAI returned invalid response format") 500).
Proof.
  unfold Sample.request.
  rewrite (upstream_without_data_is_500 Base64.decode Sample.env
             (Sample.world_answering 0 (mkImagesResponse (Some []))) Sample.empty
             (Sample.body "medieval" "iVBORw0KGgo=") Sample.medieval
             "iVBORw0KGgo=" "sk-test")
    with (result := mkImagesResponse (Some [])).
  - reflexivity.
  - reflexivity.
  - simpl. tauto.
  - reflexivity.
  - discriminate.
  - reflexivity.
  - discriminate.
  - reflexivity.
  - right. reflexivity.
Defined.

Lemma upstream_without_payload_is_500_witness :
  fst (time_travel Base64.decode Sample.env
         (Sample.world_answering 0 (mkImagesResponse (Some [mkImage None])))
         (Sample.request "medieval" "iVBORw0KGgo=") Sample.empty) =
    Returns (c_json (error_details "No image returned from OpenAI"
                       "The API response did not include image data") 500).
Proof.
  unfold Sample.request.
  rewrite (upstream_without_payload_is_500 Base64.decode Sample.env
             (Sample.world_answering 0 (mkImagesResponse (Some [mkImage None])))
             Sample.empty (Sample.body "medieval" "iVBORw0KGgo=") Sample.medieval
             "iVBORw0KGgo=" "sk-test")
    with (result := mkImagesResponse (Some [mkImage None]))
         (im := mkImage None) (others := []).
  - reflexivity.
  - reflexivity.
  - simpl. tauto.
  - reflexivity.
  - discriminate.
  - reflexivity.
  - discriminate.
  - reflexivity.
  - reflexivity.
  - left. reflexivity.
Defined.

Lemma storage_failure_is_reported_witness :
  exists r st',
    time_travel Base64.decode Sample.env_read_only (Sample.world 1700000000000)
      (Sample.request "medieval" "iVBORw0KGgo=") Sample.empty = (Returns r, st') /\
    json_field "storageError" r = Some (JStr "put failed").
Proof.
  destruct (proj1 (storage_failure_is_reported Base64.decode Sample.env_read_only
                     (Sample.world 1700000000000) Sample.empty
                     (Sample.body "medieval" "iVBORw0KGgo=") Sample.medieval
                     "iVBORw0KGgo=" "sk-test" eq_refl
                     (or_intror (or_intror (or_intror (or_introl eq_refl))))
                     eq_refl ltac:(discriminate) eq_refl ltac:(discriminate)
                     (mkImagesResponse (Some [mkImage (Some "aGVsbG8=")]))
                     (mkImage (Some "aGVsbG8=")) [] "aGVsbG8="
                     eq_refl eq_refl eq_refl ltac:(discriminate))
              Sample.read_only_bucket (Error "put failed") eq_refl eq_refl)
    as (r & Hrun & Herr).
  exists r. eexists. split; [exact Hrun|exact Herr].
Defined.

Lemma stored_image_is_served_witness :
  exists r st' filename headers,
    time_travel Base64.decode Sample.env (Sample.world 1700000000000)
      (Sample.request "medieval" "iVBORw0KGgo=") Sample.empty = (Returns r, st') /\
    json_field "filename" r = Some (JStr filename) /\
    json_field "image" r = Some (JStr ("/api/images/" +:+ filename)) /\
    fst (get_image Sample.env filename st')
      = Returns (new_Response (Base64.decode "aGVsbG8=") headers) /\
    headers !! "content-type" = Some "image/png".
Proof.
  apply (stored_image_is_served Base64.decode Sample.env (Sample.world 1700000000000)
           Sample.empty (Sample.body "medieval" "iVBORw0KGgo=") Sample.medieval
           "iVBORw0KGgo=" "sk-test")
    with (result := mkImagesResponse (Some [mkImage (Some "aGVsbG8=")]))
         (im := mkImage (Some "aGVsbG8=")) (others := []) (bucket := Sample.bucket).
  - reflexivity.
  - simpl. tauto.
  - reflexivity.
  - discriminate.
  - reflexivity.
  - discriminate.
  - reflexivity.
  - reflexivity.
  - reflexivity.
  - discriminate.
  - reflexivity.
  - reflexivity.
  - reflexivity.
Defined.

Lemma get_image_read_failure_witness :
  fst (get_image Sample.env_unreadable "timetravel-future-1700000000000.png"
         Sample.one_image) =
    Returns (c_json (error_details "Failed to retrieve image" "get failed") 500).
Proof.
  apply (get_image_read_failure Sample.env_unreadable Sample.unreadable_bucket
           (Error "get failed")); reflexivity.
Defined.

Lemma list_images_failures_witness :
  fst (list_images Sample.env_unreadable Sample.one_image) =
    Returns (c_json (error_details "Failed to list images" "list failed") 500).
Proof.
  apply (proj2 (list_images_failures Sample.env_unreadable Sample.one_image)
           Sample.unreadable_bucket (Error "list failed")); reflexivity.
Defined.

Lemma listed_urls_resolve_witness :
  exists images headers,
    fst (list_images Sample.env Sample.one_image) =
      Returns (c_json (JObj [("images", JArr images);
                             ("count", JNum (Z.of_nat (length images)))]) 200) /\
    JObj [("key", JStr (key Sample.stored_png));
          ("url", JStr ("/api/images/" +:+ key Sample.stored_png));
          ("size", JNum (Z.of_N (size Sample.stored_png)));
          ("uploaded", JDate (uploaded Sample.stored_png))] ∈ images /\
    fst (get_image Sample.env (key Sample.stored_png)
           (snd (list_images Sample.env Sample.one_image)))
      = Returns (new_Response (body Sample.stored_png) headers).
Proof.
  apply (listed_urls_resolve Sample.env Sample.bucket Sample.one_image
           [Sample.stored_png] Sample.stored_png).
  - reflexivity.
  - vm_compute. reflexivity.
  - reflexivity.
  - apply list_elem_of_singleton. reflexivity.
  - vm_compute. reflexivity.
Defined.

Lemma generated_key_chars_witness :
  Str.all is_key_char (generated_key Sample.medieval 1700000000000) = true.
Proof.
  apply (generated_key_chars Sample.medieval 1700000000000).
  simpl. tauto.
Defined.

Lemma promptText_per_era_witness : Sample.medieval = Sample.medieval.
Proof.
  apply (promptText_per_era Sample.medieval Sample.medieval).
  - simpl. tauto.
  - simpl. tauto.
  - reflexivity.
Defined.

(** ** The media list handler and the store's contents *)






